(** * product_image_analyzer: the HTTP handler of [main.py]

    A shallow embedding of [functions/product_image_analyzer/main.py]: the
    record lookup, the URL resolution, the image download, the call to the
    generative model with the scan of its answer, the write-back of the
    analysis, and the HTTP entry point that maps exceptions to status codes.

    Python exceptions are values of [exn]; a call either returns or raises
    ([outcome]).  The services the handler talks to (row store, HTTP client,
    model backend, process environment, clock) are gathered in [externals] and
    in the [world] the handler threads through its calls. *)

From Stdlib Require Import ZArith QArith.
From stdpp Require Import base option list strings gmap.

Local Open Scope string_scope.
Local Open Scope list_scope.
Local Open Scope Z_scope.

(** ** Exceptions *)

(** The classes the source tells apart: [except ValueError] (which also
    catches its subclass [json.JSONDecodeError]), [except json.JSONDecodeError],
    [except APIError], and the remaining subclasses of [Exception], of which
    [KeyError], [AttributeError], [TypeError] and [RuntimeError] (with its
    subclass [RecursionError]) are named.  [str(exc)] is carried as
    [exn_str]. *)
Inductive exn_class :=
| ValueError
| JSONDecodeError
| RuntimeError
| APIError
| KeyError
| AttributeError
| TypeError
| OtherException.

Record exn := Exn { exn_cls : exn_class; exn_str : string }.

Inductive outcome (A : Type) :=
| Return (a : A)
| Raise (e : exn).
Arguments Return {A} a.
Arguments Raise {A} e.

Definition is_ValueError (e : exn) : bool :=
  match exn_cls e with ValueError | JSONDecodeError => true | _ => false end.

Definition is_JSONDecodeError (e : exn) : bool :=
  match exn_cls e with JSONDecodeError => true | _ => false end.

Definition is_APIError (e : exn) : bool :=
  match exn_cls e with APIError => true | _ => false end.

(** ** Values *)

(** What [json.loads] produces and [json.dumps] consumes.  A float keeps its
    literal. *)
#[local] Unset Elimination Schemes.
Inductive json :=
| JNull
| JBool (b : bool)
| JInt (n : Z)
| JFloat (literal : string)
| JStr (s : string)
| JArr (items : list json)
| JObj (fields : list (string * json)).
#[local] Set Elimination Schemes.

Definition bytes := list Byte.byte.

(** Truthiness of an [Optional[str]]: [None] and [""] are falsy. *)
Definition truthy (o : option string) : bool :=
  match o with
  | Some (String _ _) => true
  | _ => false
  end.

(** The string held by a truthy value. *)
Definition the (o : option string) : string := default "" o.

(** A [product_images] row as [dict.get] sees it: a key that is missing or
    null reads as [None]. *)
Record product_image_record := {
  thumbnail_url : option string;
  primary_image_url : option string;
  image_urls : option (list string);
  ai_metadata : option json;
  updated_at : option string
}.

(** ** [_select_image_url] *)

Definition NO_USABLE_IMAGE_URL : exn :=
  Exn ValueError "No usable image URL found in product_images record".

Definition _select_image_url (record : product_image_record) : outcome string :=
  let thumbnail_url := thumbnail_url record in
  if truthy thumbnail_url then Return (the thumbnail_url)
  else
    let primary_image_url := primary_image_url record in
    if truthy primary_image_url then Return (the primary_image_url)
    else
      let image_urls := default [] (image_urls record) in
      match image_urls with
      | first :: _ => Return first
      | [] => Raise NO_USABLE_IMAGE_URL
      end.

(** ** The services around the handler *)

(** [requests.get]'s answer, as far as [_download_image] reads it:
    [raise_for_status] is the exception that method raises, if any. *)
Record http_response := {
  raise_for_status : option exn;
  content : bytes
}.

(** The model's answer, as [_call_gemini] reads it: [response.candidates]
    (empty when there is none), [candidate.content] and [content.parts],
    either of which the SDK may leave [None], and [part.text]. *)
Record part := { text : option string }.
Record genai_content := { parts : option (list part) }.
Record candidate := { candidate_content : option genai_content }.
Record generate_content_response := { candidates : list candidate }.

Record generate_content_request := {
  model : string;
  prompt_text : string;
  image_data : bytes;
  mime_type : string;
  response_mime_type : string;
  temperature : Q;
  top_p : Q;
  top_k : Z
}.

(** The calls that leave the process, in the order they are issued. *)
Inductive call :=
| StoreSelect (image_id : string)
| StoreUpdate (image_id : string) (metadata : json) (timestamp : string)
| HttpGet (url : string) (timeout : Z)
| GenerateContent (request : generate_content_request).

(** What the handler cannot decide: the process environment; the library
    function [json.loads], which returns the value or raises (a
    [JSONDecodeError] on text that is not JSON, or something else, such as a
    [RecursionError] on deep nesting); [datetime.isoformat]; whether the
    constructors of the two clients raise on the credentials they are given;
    whether a call to the row store raises for a reason of the store's, and
    the text of the [APIError] that [.single()] raises when the select finds
    no row; what the HTTP client and the model answer; and how long a call
    takes. *)
Record externals := {
  environ : gmap string string;
  json_loads : string -> outcome json;
  isoformat : Z -> string;
  create_client_raises : string -> string -> option exn;
  genai_Client_raises : string -> option exn;
  select_raises : string -> option exn;
  zero_rows_text : string;
  update_raises : string -> json -> string -> option exn;
  requests_get : string -> Z -> outcome http_response;
  generate_content : generate_content_request -> outcome generate_content_response;
  elapsed : call -> N
}.

(** The state a request runs in: the [product_images] table keyed by [id],
    the UTC clock, the two module-level client singletons, and the calls
    issued so far (oldest first). *)
Record world := {
  product_images : gmap string product_image_record;
  clock : Z;
  _supabase_client : option (string * string);
  _gemini_client : option string;
  trace : list call
}.

(** ** A request's computations: state and exceptions *)

Definition M (A : Type) : Type := world -> outcome A * world.

Definition ret {A} (a : A) : M A := fun w => (Return a, w).

Definition raise {A} (e : exn) : M A := fun w => (Raise e, w).

Definition bind {A B} (m : M A) (k : A -> M B) : M B :=
  fun w =>
    match m w with
    | (Return a, w') => k a w'
    | (Raise e, w') => (Raise e, w')
    end.

Notation "x <- m ;; k" := (bind m (fun x => k))
  (at level 100, m at next level, right associativity).
Notation "m ;;; k" := (bind m (fun _ => k))
  (at level 100, right associativity).

(** A pure function that may raise, run inside a request. *)
Definition lift {A} (o : outcome A) : M A := fun w => (o, w).

(** [try: m except APIError as exc: handler exc]. *)
Definition try_except_APIError {A} (m : M A) (handler : exn -> M A) : M A :=
  fun w =>
    match m w with
    | (Raise exc, w') => if is_APIError exc then handler exc w' else (Raise exc, w')
    | r => r
    end.

(** The line feed of the prompt. *)
Definition LF : string := String (Ascii.ascii_of_nat 10) "".

Definition PROMPT : string :=
  "You are assisting an ice-cream marketplace. Analyze this product photo "
  +:+ "and provide: " +:+ LF
  +:+ "1. A concise product title (<= 12 words)." +:+ LF
  +:+ "2. Likely product category (ice cream, sorbet, frozen dessert, gelato, "
  +:+ "popsicle, other)." +:+ LF
  +:+ "3. Estimated price in INR (integer)." +:+ LF
  +:+ "4. Tasting description (40-60 words)." +:+ LF
  +:+ "Return JSON with keys: title, category, price_inr, description.".

Section Pipeline.

Variable E : externals.

(** A call leaves the process: it is recorded, and the clock has moved on
    by the time it comes back. *)
Definition issue (c : call) (w : world) : world :=
  {| product_images := product_images w;
     clock := clock w + Z.of_N (elapsed E c);
     _supabase_client := _supabase_client w;
     _gemini_client := _gemini_client w;
     trace := trace w ++ [c] |}.

(** [os.environ[key]]. *)
Definition os_environ (key : string) : M string :=
  match environ E !! key with
  | Some v => ret v
  | None => raise (Exn KeyError ("'" +:+ key +:+ "'"))
  end.

(** [create_client(supabase_url, service_role_key)]: raises, or builds the
    client, which is told by the credentials it was built from. *)
Definition create_client (supabase_url service_role_key : string) : M (string * string) :=
  match create_client_raises E supabase_url service_role_key with
  | Some exc => raise exc
  | None => ret (supabase_url, service_role_key)
  end.

(** [genai.Client(api_key=api_key)]. *)
Definition genai_Client (api_key : string) : M string :=
  match genai_Client_raises E api_key with
  | Some exc => raise exc
  | None => ret api_key
  end.

Definition _get_supabase_client : M (string * string) :=
  fun w =>
    match _supabase_client w with
    | Some client => (Return client, w)
    | None =>
        (supabase_url <- os_environ "SUPABASE_URL" ;;
         service_role_key <- os_environ "SUPABASE_SERVICE_ROLE_KEY" ;;
         client <- create_client supabase_url service_role_key ;;
         fun w =>
           (Return client,
            {| product_images := product_images w;
               clock := clock w;
               _supabase_client := Some client;
               _gemini_client := _gemini_client w;
               trace := trace w |})) w
    end.

Definition _get_gemini_client : M string :=
  fun w =>
    match _gemini_client w with
    | Some client => (Return client, w)
    | None =>
        (api_key <- os_environ "GEMINI_API_KEY" ;;
         client <- genai_Client api_key ;;
         fun w =>
           (Return client,
            {| product_images := product_images w;
               clock := clock w;
               _supabase_client := _supabase_client w;
               _gemini_client := Some client;
               trace := trace w |})) w
    end.

(** [client.table("product_images").select("*").eq("id", image_id)
    .single().execute()]: raises for a reason of the store's; or, the table
    having no row of that id, raises the [APIError] with which [.single()]
    answers zero rows; or answers with the row as [response.data]. *)
Definition select_eq_single_execute (image_id : string) : M (option product_image_record) :=
  fun w =>
    let w' := issue (StoreSelect image_id) w in
    match select_raises E image_id with
    | Some exc => (Raise exc, w')
    | None =>
        match product_images w !! image_id with
        | Some record => (Return (Some record), w')
        | None => (Raise (Exn APIError (zero_rows_text E)), w')
        end
    end.

Definition _fetch_product_image_record (image_id : string) : M product_image_record :=
  client <- _get_supabase_client ;;
  data <- select_eq_single_execute image_id ;;
  match data with
  | None =>
      raise (Exn ValueError ("No product_images row found for id '" +:+ image_id +:+ "'"))
  | Some record => ret record
  end.

Definition http_get (url : string) (timeout : Z) : M http_response :=
  fun w => (requests_get E url timeout, issue (HttpGet url timeout) w).

Definition _download_image (image_url : string) : M bytes :=
  response <- http_get image_url 20 ;;
  match raise_for_status response with
  | Some exc => raise exc
  | None => ret (content response)
  end.

Definition models_generate_content (request : generate_content_request)
  : M generate_content_response :=
  fun w => (generate_content E request, issue (GenerateContent request) w).

(** The loop [for part in candidate.content.parts] of [_call_gemini], once
    [candidate.content.parts] is at hand, with the [raise] that follows
    it. *)
Fixpoint for_part_in (parts : list part) : outcome json :=
  match parts with
  | [] => Raise (Exn RuntimeError "Gemini candidate had no textual JSON content")
  | part :: parts =>
      if truthy (text part) then
        match json_loads E (the (text part)) with
        | Return value => Return value
        | Raise exc =>
            if is_JSONDecodeError exc then
              Raise (Exn ValueError
                       ("Gemini response is not valid JSON: " +:+ the (text part)))
            else Raise exc
        end
      else for_part_in parts
  end.

Definition _call_gemini (image_bytes : bytes) (model_id : string) : M json :=
  client <- _get_gemini_client ;;
  response <- models_generate_content
                {| model := model_id;
                   prompt_text := PROMPT;
                   image_data := image_bytes;
                   mime_type := "image/jpeg";
                   response_mime_type := "application/json";
                   temperature := 35 # 100;
                   top_p := 8 # 10;
                   top_k := 32 |} ;;
  match candidates response with
  | [] => raise (Exn RuntimeError "Gemini returned no candidates")
  | candidate :: _ =>
      match candidate_content candidate with
      | None => raise (Exn AttributeError "'NoneType' object has no attribute 'parts'")
      | Some content =>
          match parts content with
          | None => raise (Exn TypeError "'NoneType' object is not iterable")
          | Some parts => lift (for_part_in parts)
          end
      end
  end.

(** [datetime.datetime.now(datetime.timezone.utc)]. *)
Definition datetime_now_utc : M Z := fun w => (Return (clock w), w).

(** What the update writes on a row: the two columns of the payload. *)
Definition with_payload (metadata : json) (timestamp : string)
    (record : product_image_record) : product_image_record :=
  {| thumbnail_url := thumbnail_url record;
     primary_image_url := primary_image_url record;
     image_urls := image_urls record;
     ai_metadata := Some metadata;
     updated_at := Some timestamp |}.

(** [client.table("product_images").update(payload).eq("id", image_id)
    .execute()]: raises and leaves the table as it was, or sets the
    payload's columns on the row of that id. *)
Definition update_eq_execute (image_id : string) (metadata : json) (timestamp : string)
  : M unit :=
  fun w =>
    let w' := issue (StoreUpdate image_id metadata timestamp) w in
    match update_raises E image_id metadata timestamp with
    | Some exc => (Raise exc, w')
    | None =>
        (Return tt,
         {| product_images := alter (with_payload metadata timestamp) image_id (product_images w');
            clock := clock w';
            _supabase_client := _supabase_client w';
            _gemini_client := _gemini_client w';
            trace := trace w' |})
    end.

Definition _update_ai_metadata (image_id : string) (metadata : json) : M unit :=
  client <- _get_supabase_client ;;
  now <- datetime_now_utc ;;
  let timestamp := isoformat E now in
  try_except_APIError
    (update_eq_execute image_id metadata timestamp)
    (fun exc =>
       raise (Exn RuntimeError
                ("Failed to update product_images.ai_metadata: " +:+ exn_str exc))).

(** The dictionary [_analyze] returns. *)
Definition analyze_result (derived_url : string) (analysis : json) : json :=
  JObj [("source_image_url", JStr derived_url); ("analysis", analysis)].

Definition _analyze (image_id image_url : option string) : M json :=
  resolved <-
    (if truthy image_id then
       record <- _fetch_product_image_record (the image_id) ;;
       derived_url <- lift (_select_image_url record) ;;
       ret (Some record, Some derived_url)
     else ret (None, image_url)) ;;
  let record : option product_image_record := resolved.1 in
  let derived_url : option string := resolved.2 in
  if negb (truthy derived_url) then
    raise (Exn ValueError "No image URL provided or found in Supabase record")
  else
    image_bytes <- _download_image (the derived_url) ;;
    let model_id := default "gemini-2.5-flash" (environ E !! "GEMINI_MODEL_ID") in
    analysis <- _call_gemini image_bytes model_id ;;
    (if truthy image_id && bool_decide (is_Some record)
     then _update_ai_metadata (the image_id) analysis
     else ret tt) ;;;
    ret (analyze_result (the derived_url) analysis).

End Pipeline.

(** ** The HTTP entry point *)

(** A JSON object as the handler reads it: what [payload.get] finds under
    the two keys, each a string, or [None] for a key that is absent or
    null. *)
Record payload := {
  product_image_id : option string;
  image_url : option string
}.

(** [{}]. *)
Definition empty_payload : payload :=
  {| product_image_id := None; image_url := None |}.

(** What [request.get_json(silent=True)] returns: [None] (there is no JSON
    body, or the parser raised a [ValueError], which [silent=True] swallows);
    a JSON object; or another JSON value (array, string, number, boolean),
    of which the handler sees the truthiness and, in the [AttributeError],
    the name of its type. *)
Inductive json_body :=
| NoBody
| ObjectBody (fields : payload)
| OtherBody (is_truthy : bool) (type_name : string).

(** The request object: [request.method], and what
    [request.get_json(silent=True)] does on it: it returns, or it raises
    (when the parser raises something that is no [ValueError], such as a
    [RecursionError] on a deeply nested body). *)
Record request := {
  method : string;
  get_json_silent : outcome json_body
}.

(** [payload = data or {}] followed by [payload.get]: a falsy value gives
    way to the empty object; a truthy value that is no object has no
    [get]. *)
Definition payload_get (data : json_body) : outcome payload :=
  match data with
  | NoBody => Return empty_payload
  | ObjectBody fields => Return fields
  | OtherBody false _ => Return empty_payload
  | OtherBody true type_name =>
      Raise (Exn AttributeError ("'" +:+ type_name +:+ "' object has no attribute 'get'"))
  end.

(** A response body: a bare string, or [json.dumps(value)]. *)
Inductive body :=
| Text (s : string)
| JsonDumps (value : json).

Record response := {
  resp_body : body;
  resp_status : Z;
  resp_headers : list (string * string)
}.

Definition JSON_HEADERS : list (string * string) :=
  [("Content-Type", "application/json")].

Definition error_response (message : string) (status : Z) : response :=
  {| resp_body := JsonDumps (JObj [("error", JStr message)]);
     resp_status := status;
     resp_headers := JSON_HEADERS |}.

(** The handler returns a response, or raises what its two [try] blocks do
    not cover: the [AttributeError] of [payload.get]. *)
Definition analyze_product_image (E : externals) (request : request)
  : world -> outcome response * world :=
  fun w =>
    if negb (String.eqb (method request) "POST") then
      (Return {| resp_body := Text "Method Not Allowed"; resp_status := 405;
                 resp_headers := [] |}, w)
    else
      match get_json_silent request with
      | Raise _ => (Return (error_response "Invalid JSON body" 400), w)
      | Return data =>
          match payload_get data with
          | Raise exc => (Raise exc, w)
          | Return payload =>
              let image_id := product_image_id payload in
              let image_url := image_url payload in
              match _analyze E image_id image_url w with
              | (Raise exc, w') =>
                  if is_ValueError exc then (Return (error_response (exn_str exc) 400), w')
                  else (Return (error_response (exn_str exc) 500), w')
              | (Return result, w') =>
                  (Return {| resp_body := JsonDumps result;
                             resp_status := 200;
                             resp_headers := JSON_HEADERS |}, w')
              end
          end
      end.

(** ** Sample services, for running the handler on concrete requests *)

Module Sample.

(** [json.loads] on the texts the examples use: ["{}"] is the empty object,
    the other texts of the examples are not JSON. *)
Definition loads (s : string) : outcome json :=
  if String.eqb s "{}" then Return (JObj [])
  else Raise (Exn JSONDecodeError "Expecting value: line 1 column 1 (char 0)").

(** The clock of the examples stands at 1700000000 s after the epoch. *)
Definition EPOCH : Z := 1700000000.

Definition iso (t : Z) : string :=
  if t =? EPOCH then "2023-11-14T22:13:20+00:00" else "".

Definition ENVIRON : gmap string string :=
  {[ "SUPABASE_URL" := "https://store.example";
     "SUPABASE_SERVICE_ROLE_KEY" := "service-role-key";
     "GEMINI_API_KEY" := "api-key" ]}.

Definition JPEG : bytes := [Byte.xff; Byte.xd8; Byte.xff].

(** The text of the [APIError] for a select of one row that finds none. *)
Definition ZERO_ROWS : string :=
  "{'code': 'PGRST116', 'details': 'The result contains 0 rows', 'hint': None, "
  +:+ "'message': 'Cannot coerce the result to a single JSON object'}".

(** Services whose store and download never fail; the model answers with
    one candidate made of [texts], and the update raises [update_error]. *)
Definition services (texts : list (option string)) (update_error : option exn) : externals :=
  {| environ := ENVIRON;
     json_loads := loads;
     isoformat := iso;
     create_client_raises := fun _ _ => None;
     genai_Client_raises := fun _ => None;
     select_raises := fun _ => None;
     zero_rows_text := ZERO_ROWS;
     update_raises := fun _ _ _ => update_error;
     requests_get := fun _ _ => Return {| raise_for_status := None; content := JPEG |};
     generate_content := fun _ =>
       Return {| candidates :=
                   [ {| candidate_content :=
                          Some {| parts := Some (map Build_part texts) |} |} ] |};
     elapsed := fun _ => 0%N |}.

Definition ROW : product_image_record :=
  {| thumbnail_url := Some "https://x/thumb.jpg";
     primary_image_url := Some "https://x/primary.jpg";
     image_urls := Some ["https://x/1.jpg"; "https://x/2.jpg"];
     ai_metadata := Some (JObj [("title", JStr "old")]);
     updated_at := Some "2020-01-01T00:00:00+00:00" |}.

(** A cold process in front of a table that holds [ROW] under id ["r1"]. *)
Definition COLD : world :=
  {| product_images := {[ "r1" := ROW ]};
     clock := EPOCH;
     _supabase_client := None;
     _gemini_client := None;
     trace := [] |}.

Definition post (image_id image_url : option string) : request :=
  {| method := "POST";
     get_json_silent :=
       Return (ObjectBody {| product_image_id := image_id; image_url := image_url |}) |}.

End Sample.

(** ** The specification's wording, for comparison with the code *)

(** URL resolution as the specification words it: the candidates are
    [thumbnail_url], [primary_image_url] and the first element of
    [image_urls], and the first non-empty one wins. *)
Definition candidates_in_priority_order (record : product_image_record)
  : list (option string) :=
  [ thumbnail_url record;
    primary_image_url record;
    head (default [] (image_urls record)) ].

Definition first_non_empty (candidates : list (option string)) : option string :=
  head (omap (fun c => if truthy c then c else None) candidates).

Definition resolve_spec (record : product_image_record) : outcome string :=
  match first_non_empty (candidates_in_priority_order record) with
  | Some url => Return url
  | None => Raise NO_USABLE_IMAGE_URL
  end.

(** The answer scan as the specification (and the comment above the loop)
    words it: the value of the first segment whose text parses as JSON. *)
Definition first_segment_that_parses (loads : string -> outcome json) (parts : list part)
  : option json :=
  head (omap (fun p =>
                if truthy (text p) then
                  match loads (the (text p)) with
                  | Return value => Some value
                  | Raise _ => None
                  end
                else None) parts).

(** ** Observations on a request and on the calls of a run *)

(** The [product_image_id] and [image_url] a request supplies. *)
Definition supplied_payload (request : request) : payload :=
  match get_json_silent request with
  | Return (ObjectBody payload) => payload
  | _ => empty_payload
  end.

Definition is_store_call (c : call) : bool :=
  match c with
  | StoreSelect _ | StoreUpdate _ _ _ => true
  | _ => false
  end.

(** Whether a call, once issued in front of [table], raises: a select
    raises what the store raises, or the [APIError] for a row that is not
    there. *)
Definition call_raises (E : externals) (table : gmap string product_image_record)
    (c : call) : bool :=
  match c with
  | StoreSelect image_id =>
      match select_raises E image_id, table !! image_id with
      | None, Some _ => false
      | _, _ => true
      end
  | StoreUpdate image_id metadata timestamp =>
      bool_decide (is_Some (update_raises E image_id metadata timestamp))
  | HttpGet url timeout =>
      match requests_get E url timeout with
      | Raise _ => true
      | Return response => bool_decide (is_Some (raise_for_status response))
      end
  | GenerateContent request =>
      match generate_content E request with
      | Raise _ => true
      | Return _ => false
      end
  end.

(** Calls that all came back without raising. *)
Definition clean (E : externals) (table : gmap string product_image_record)
    (calls : list call) : Prop :=
  Forall (fun c => call_raises E table c = false) calls.

(** The row-store client exists already, or the environment has the
    credentials and [create_client] accepts them. *)
Definition store_client_available (E : externals) (w : world) : Prop :=
  is_Some (_supabase_client w)
  \/ (exists supabase_url service_role_key,
        environ E !! "SUPABASE_URL" = Some supabase_url
        /\ environ E !! "SUPABASE_SERVICE_ROLE_KEY" = Some service_role_key
        /\ create_client_raises E supabase_url service_role_key = None).

(** ** Outcomes of the stages, failures and invariants *)

(** The request [_call_gemini] sends for an image and a model id. *)
Definition generate_request (model_id : string) (image_bytes : bytes)
  : generate_content_request :=
  {| model := model_id;
     prompt_text := PROMPT;
     image_data := image_bytes;
     mime_type := "image/jpeg";
     response_mime_type := "application/json";
     temperature := 35 # 100;
     top_p := 8 # 10;
     top_k := 32 |}.

(** [os.environ.get("GEMINI_MODEL_ID", "gemini-2.5-flash")]. *)
Definition configured_model (E : externals) : string :=
  default "gemini-2.5-flash" (environ E !! "GEMINI_MODEL_ID").

(** What the download of [url] ends with: the bytes, or the exception of
    [requests.get] or of [raise_for_status]. *)
Definition download_outcome (E : externals) (url : string) : outcome bytes :=
  match requests_get E url 20 with
  | Raise exc => Raise exc
  | Return response =>
      match raise_for_status response with
      | Some exc => Raise exc
      | None => Return (content response)
      end
  end.

(** What is made of the model's answer to [request]. *)
Definition answer_outcome (E : externals) (request : generate_content_request)
  : outcome json :=
  match generate_content E request with
  | Raise exc => Raise exc
  | Return response =>
      match candidates response with
      | [] => Raise (Exn RuntimeError "Gemini returned no candidates")
      | candidate :: _ =>
          match candidate_content candidate with
          | None => Raise (Exn AttributeError "'NoneType' object has no attribute 'parts'")
          | Some content =>
              match parts content with
              | None => Raise (Exn TypeError "'NoneType' object is not iterable")
              | Some parts => for_part_in E parts
              end
          end
      end
  end.

(** What the lookup of [image_id] ends with in a table: the exception of the
    select, be it the store's or the one for zero rows, or the row. *)
Definition lookup_outcome (E : externals) (image_id : string)
    (table : gmap string product_image_record) : outcome product_image_record :=
  match select_raises E image_id with
  | Some exc => Raise exc
  | None =>
      match table !! image_id with
      | Some record => Return record
      | None => Raise (Exn APIError (zero_rows_text E))
      end
  end.

(** An exception that comes from one of the services or libraries: from a
    client constructor, from a call to the row store, from the download,
    from the model call, or from [json.loads] when it is no
    [JSONDecodeError]. *)
Definition raised_by_service (E : externals) (exc : exn) : Prop :=
  (exists supabase_url service_role_key,
     create_client_raises E supabase_url service_role_key = Some exc)
  \/ (exists api_key, genai_Client_raises E api_key = Some exc)
  \/ (exists image_id, select_raises E image_id = Some exc)
  \/ (exists image_id metadata timestamp,
        update_raises E image_id metadata timestamp = Some exc)
  \/ (exists url, download_outcome E url = Raise exc)
  \/ (exists request, generate_content E request = Raise exc)
  \/ (exists raw, json_loads E raw = Raise exc /\ is_JSONDecodeError exc = false).

(** The exceptions a request can end with. *)
Inductive failure (E : externals) : exn -> Prop :=
| MissingVariable (key : string) :
    environ E !! key = None ->
    failure E (Exn KeyError ("'" +:+ key +:+ "'"))
| ZeroRows :
    failure E (Exn APIError (zero_rows_text E))
| NoUsableImage :
    failure E NO_USABLE_IMAGE_URL
| MissingImageInput :
    failure E (Exn ValueError "No image URL provided or found in Supabase record")
| NoCandidates :
    failure E (Exn RuntimeError "Gemini returned no candidates")
| NoContent :
    failure E (Exn AttributeError "'NoneType' object has no attribute 'parts'")
| NoParts :
    failure E (Exn TypeError "'NoneType' object is not iterable")
| NoTextContent :
    failure E (Exn RuntimeError "Gemini candidate had no textual JSON content")
| InvalidJSON (raw : string) (exc : exn) :
    json_loads E raw = Raise exc ->
    is_JSONDecodeError exc = true ->
    failure E (Exn ValueError ("Gemini response is not valid JSON: " +:+ raw))
| PersistenceFailed (image_id : string) (metadata : json) (timestamp : string)
    (exc : exn) :
    update_raises E image_id metadata timestamp = Some exc ->
    is_APIError exc = true ->
    failure E (Exn RuntimeError
                 ("Failed to update product_images.ai_metadata: " +:+ exn_str exc))
| ServiceRaised (exc : exn) :
    raised_by_service E exc ->
    failure E exc.

(** A computation that neither resets nor replaces a client singleton. *)
Definition keeps_clients {A} (m : M A) : Prop :=
  forall w o w',
    m w = (o, w') ->
    (forall client, _supabase_client w = Some client -> _supabase_client w' = Some client)
    /\ (forall client, _gemini_client w = Some client -> _gemini_client w' = Some client).

(** What the handler answers to what [_analyze] ends with. *)
Definition response_of (o : outcome json) : response :=
  match o with
  | Return result =>
      {| resp_body := JsonDumps result; resp_status := 200; resp_headers := JSON_HEADERS |}
  | Raise exc => error_response (exn_str exc) (if is_ValueError exc then 400 else 500)
  end.

(** * Truthiness and URL resolution *)

Lemma truthy_Some (o : option string) :
  truthy o = true -> o = Some (the o) /\ the o <> "".
Proof. destruct o as [[|c s]|]; simpl; intros; (done || by split). Qed.

Lemma truthy_nonempty (s : string) : s <> "" -> truthy (Some s) = true.
Proof. by destruct s. Qed.

(** The code and the specification's wording agree whenever an earlier field
    wins or the head of [image_urls] is not the empty string. *)
Lemma select_image_url_resolve_spec (record : product_image_record) :
  truthy (thumbnail_url record) || truthy (primary_image_url record) = true
  \/ head (default [] (image_urls record)) <> Some "" ->
  _select_image_url record = resolve_spec record.
Proof.
  unfold _select_image_url, resolve_spec, first_non_empty, candidates_in_priority_order.
  destruct record as [t p us m u]; simpl.
  destruct t as [[|c s]|], p as [[|c' s']|], us as [[|[|c'' s''] us]|];
    simpl; intros [H|H]; try done.
Qed.

(** C1, as stated: the record whose only candidate is an empty first element
    of [image_urls] has no non-empty candidate, so the specification's
    resolution fails with the no-image error; [_select_image_url] returns
    the empty string instead. *)
Lemma select_image_url_empty_first_element :
  let record :=
    {| thumbnail_url := None; primary_image_url := None; image_urls := Some [""];
       ai_metadata := None; updated_at := None |} in
  resolve_spec record = Raise NO_USABLE_IMAGE_URL
  /\ _select_image_url record = Return "".
Proof. split; reflexivity. Qed.

(** C1, amended: [_select_image_url] returns [thumbnail_url] when it is
    non-empty, whatever the other fields hold; otherwise [primary_image_url]
    when it is non-empty; otherwise the first element of [image_urls] when
    that list is non-empty, be the element empty or not; and it fails with
    the no-image [ValueError] exactly when both fields are empty or absent and
    the list is empty or absent. *)
Theorem select_image_url_priority (record : product_image_record) :
  (forall url, thumbnail_url record = Some url -> url <> "" ->
     _select_image_url record = Return url)
  /\ (truthy (thumbnail_url record) = false ->
      forall url, primary_image_url record = Some url -> url <> "" ->
        _select_image_url record = Return url)
  /\ (truthy (thumbnail_url record) = false ->
      truthy (primary_image_url record) = false ->
      forall first rest, image_urls record = Some (first :: rest) ->
        _select_image_url record = Return first)
  /\ (truthy (thumbnail_url record) = false ->
      truthy (primary_image_url record) = false ->
      image_urls record = None \/ image_urls record = Some [] ->
      _select_image_url record = Raise NO_USABLE_IMAGE_URL)
  /\ (forall exc, _select_image_url record = Raise exc ->
      exc = NO_USABLE_IMAGE_URL
      /\ truthy (thumbnail_url record) = false
      /\ truthy (primary_image_url record) = false
      /\ default [] (image_urls record) = []).
Proof.
  unfold _select_image_url.
  destruct record as [t p us m u]; simpl.
  split; [|split; [|split; [|split]]].
  - intros url -> Hne. by rewrite truthy_nonempty.
  - intros -> url -> Hne. by rewrite truthy_nonempty.
  - by intros -> -> first rest ->.
  - by intros -> -> [->| ->].
  - intros exc. destruct (truthy t); [done|]. destruct (truthy p); [done|].
    destruct (default [] us); [|done]. by intros [= <-].
Qed.

Lemma select_image_url_priority_witness :
  _select_image_url Sample.ROW = Return "https://x/thumb.jpg".
Proof.
  apply (proj1 (select_image_url_priority Sample.ROW)); [reflexivity | discriminate].
Defined.

(** * The scan of the model's answer *)

(** X17: the loop skips the parts without text or with empty text and is
    decided by the first part whose text is non-empty, the parts after it
    never being looked at: what [json.loads] returns on that text is the
    result; a [JSONDecodeError] of [json.loads] becomes the [ValueError]
    that quotes the text; and any other exception of [json.loads] (a
    [RecursionError], a plain [ValueError]) propagates as it is. *)
Lemma for_part_in_first_text (E : externals) (skipped : list part) (p : part)
    (rest : list part) :
  Forall (fun q => truthy (text q) = false) skipped ->
  truthy (text p) = true ->
  for_part_in E (skipped ++ p :: rest) =
    match json_loads E (the (text p)) with
    | Return value => Return value
    | Raise exc =>
        if is_JSONDecodeError exc then
          Raise (Exn ValueError ("Gemini response is not valid JSON: " +:+ the (text p)))
        else Raise exc
    end.
Proof.
  intros Hskip Hp. induction Hskip as [|q skipped Hq _ IH]; simpl.
  - by rewrite Hp.
  - by rewrite Hq.
Qed.

Lemma for_part_in_no_text (E : externals) (parts : list part) :
  Forall (fun q => truthy (text q) = false) parts ->
  for_part_in E parts =
    Raise (Exn RuntimeError "Gemini candidate had no textual JSON content").
Proof. induction 1 as [|q parts Hq _ IH]; simpl; [done|by rewrite Hq]. Qed.

(** What the loop raises is one of its two errors, the [ValueError]
    carrying the text that did not parse, or what [json.loads] raised
    besides. *)
Lemma for_part_in_Raise (E : externals) (parts : list part) (exc : exn) :
  for_part_in E parts = Raise exc ->
  exc = Exn RuntimeError "Gemini candidate had no textual JSON content"
  \/ (exists raw cause,
        exc = Exn ValueError ("Gemini response is not valid JSON: " +:+ raw)
        /\ json_loads E raw = Raise cause /\ is_JSONDecodeError cause = true)
  \/ (exists raw, json_loads E raw = Raise exc /\ is_JSONDecodeError exc = false).
Proof.
  induction parts as [|p parts IH]; simpl.
  - intros [= <-]. by left.
  - destruct (truthy (text p)); [|done].
    destruct (json_loads E (the (text p))) as [value|cause] eqn:Hl; [done|].
    destruct (is_JSONDecodeError cause) eqn:Hc; intros [= <-]; right; [left|right]; eauto.
Qed.

(** * Runs of the stages *)

Lemma bind_inv {A B} (m : M A) (k : A -> M B) (w w' : world) (o : outcome B) :
  bind m k w = (o, w') ->
  (exists a w1, m w = (Return a, w1) /\ k a w1 = (o, w'))
  \/ (exists exc, m w = (Raise exc, w') /\ o = Raise exc).
Proof.
  unfold bind. destruct (m w) as [[a|exc] w1]; intros H.
  - left. by exists a, w1.
  - right. exists exc. by simplify_eq.
Qed.

Section Stages.

Variable E : externals.

(** Getting the row-store client issues no call and leaves table and clock
    alone; when it fails (a missing environment variable, or a constructor
    that raises) nothing has changed, and once the client exists it is
    returned as it is. *)
Lemma get_supabase_client_run (w w' : world) (o : outcome (string * string)) :
  _get_supabase_client E w = (o, w') ->
  product_images w' = product_images w /\ clock w' = clock w
  /\ trace w' = trace w /\ _gemini_client w' = _gemini_client w
  /\ match o with
     | Return client => _supabase_client w' = Some client
     | Raise exc => w' = w
     end.
Proof.
  unfold _get_supabase_client, os_environ, create_client, bind, ret, raise.
  destruct (_supabase_client w) eqn:Hc; [by intros [= <- <-]|].
  destruct (environ E !! "SUPABASE_URL") as [url|]; [|by intros [= <- <-]].
  destruct (environ E !! "SUPABASE_SERVICE_ROLE_KEY") as [key|]; [|by intros [= <- <-]].
  destruct (create_client_raises E url key); by intros [= <- <-].
Qed.

Lemma get_supabase_client_ready (w : world) (client : string * string) :
  _supabase_client w = Some client ->
  _get_supabase_client E w = (Return client, w).
Proof. unfold _get_supabase_client. by intros ->. Qed.

Lemma get_gemini_client_run (w w' : world) (o : outcome string) :
  _get_gemini_client E w = (o, w') ->
  product_images w' = product_images w /\ clock w' = clock w
  /\ trace w' = trace w /\ _supabase_client w' = _supabase_client w
  /\ match o with
     | Return client => _gemini_client w' = Some client
     | Raise exc => w' = w
     end.
Proof.
  unfold _get_gemini_client, os_environ, genai_Client, bind, ret, raise.
  destruct (_gemini_client w) eqn:Hc; [by intros [= <- <-]|].
  destruct (environ E !! "GEMINI_API_KEY") as [key|]; [|by intros [= <- <-]].
  destruct (genai_Client_raises E key); by intros [= <- <-].
Qed.

(** The record lookup: at most the one select, which it issues as soon as it
    has a client; the table is only read. *)
Lemma fetch_product_image_record_run (image_id : string) (w w' : world)
    (o : outcome product_image_record) :
  _fetch_product_image_record E image_id w = (o, w') ->
  product_images w' = product_images w /\ clock w <= clock w'
  /\ ((w' = w /\ exists exc, o = Raise exc)
      \/ (trace w' = trace w ++ [StoreSelect image_id]
          /\ is_Some (_supabase_client w')
          /\ o = lookup_outcome E image_id (product_images w))).
Proof.
  unfold _fetch_product_image_record, lookup_outcome. intros H.
  apply bind_inv in H as [(client & w1 & Hc & H)|(exc & Hc & ->)];
    apply get_supabase_client_run in Hc as (Hs & Hk & Ht & _ & Hc).
  - unfold bind, select_eq_single_execute, ret, raise in H. rewrite <- Hs.
    destruct (select_raises E image_id) as [exc|].
    + simplify_eq/=. rewrite Ht, Hk. repeat split; [lia|right]. by rewrite Hc.
    + destruct (product_images w1 !! image_id); simplify_eq/=;
        rewrite Ht, Hk; (repeat split; [lia|right]); by rewrite Hc.
  - subst w'. repeat split; [lia|left]. eauto.
Qed.

(** The download: exactly one GET with the 20-second timeout. *)
Lemma download_image_run (image_url : string) (w w' : world) (o : outcome bytes) :
  _download_image E image_url w = (o, w') ->
  product_images w' = product_images w /\ clock w <= clock w'
  /\ _supabase_client w' = _supabase_client w
  /\ trace w' = trace w ++ [HttpGet image_url 20]
  /\ forall table,
       match o with
       | Return _ => call_raises E table (HttpGet image_url 20) = false
       | Raise _ => call_raises E table (HttpGet image_url 20) = true
       end.
Proof.
  unfold _download_image, bind, http_get, ret, raise. simpl.
  destruct (requests_get E image_url 20) as [response|exc].
  - destruct (raise_for_status response) eqn:Hr; intros [= <- <-]; simpl;
      split_and!; try done; try lia.
  - intros [= <- <-]. simpl. split_and!; try done; lia.
Qed.

(** The model call: at most the one request, built from the fixed prompt;
    what is made of the answer. *)
Lemma call_gemini_run (image_bytes : bytes) (model_id : string) (w w' : world)
    (o : outcome json) :
  _call_gemini E image_bytes model_id w = (o, w') ->
  product_images w' = product_images w /\ clock w <= clock w'
  /\ _supabase_client w' = _supabase_client w
  /\ ((w' = w /\ exists exc, o = Raise exc)
      \/ (trace w' = trace w ++ [GenerateContent (generate_request model_id image_bytes)]
          /\ is_Some (_gemini_client w')
          /\ o = answer_outcome E (generate_request model_id image_bytes))).
Proof.
  unfold _call_gemini, answer_outcome. intros H.
  fold (generate_request model_id image_bytes) in H.
  apply bind_inv in H as [(client & w1 & Hc & H)|(exc & Hc & ->)];
    apply get_gemini_client_run in Hc as (Hs & Hk & Ht & Hsc & Hc).
  - unfold bind, models_generate_content, lift, raise in H.
    rewrite <- Hs, <- Hk, <- Hsc, <- Ht.
    destruct (generate_content E _) as [response|exc] eqn:Hg.
    + destruct (candidates response) as [|candidate ?]; [|
        destruct (candidate_content candidate) as [content|]; [
          destruct (parts content) as [ps|]|]];
        simplify_eq/=; (split_and!; [done|lia|done|right]); by rewrite Hc.
    + simplify_eq/=. split_and!; [done|lia|done|right]. by rewrite Hc.
  - subst w'. split_and!; [done|lia|done|left]. eauto.
Qed.

(** The write-back, once the client exists: exactly one update, stamped with
    the clock read before it is issued; an [APIError] comes out wrapped in a
    [RuntimeError], and a failed update leaves the table as it was. *)
Lemma update_ai_metadata_run (image_id : string) (metadata : json) (w w' : world)
    (o : outcome unit) :
  is_Some (_supabase_client w) ->
  _update_ai_metadata E image_id metadata w = (o, w') ->
  let timestamp := isoformat E (clock w) in
  trace w' = trace w ++ [StoreUpdate image_id metadata timestamp]
  /\ clock w <= clock w'
  /\ match update_raises E image_id metadata timestamp with
     | None =>
         o = Return tt
         /\ product_images w' =
              alter (with_payload metadata timestamp) image_id (product_images w)
     | Some exc =>
         product_images w' = product_images w
         /\ o = Raise (if is_APIError exc
                       then Exn RuntimeError
                              ("Failed to update product_images.ai_metadata: "
                               +:+ exn_str exc)
                       else exc)
     end.
Proof.
  intros [client Hc]. unfold _update_ai_metadata, bind.
  rewrite (get_supabase_client_ready _ _ Hc).
  unfold datetime_now_utc, try_except_APIError, update_eq_execute, raise. simpl.
  destruct (update_raises E image_id metadata (isoformat E (clock w))) as [exc|].
  - destruct (is_APIError exc); intros [= <- <-]; simpl; split_and!; try done; lia.
  - intros [= <- <-]. simpl. split_and!; try done; lia.
Qed.

End Stages.

(** * Runs of [_analyze] *)

Section Analyze.

Variable E : externals.

Lemma fetch_Return (image_id : string) (w w' : world) (record : product_image_record) :
  _fetch_product_image_record E image_id w = (Return record, w') ->
  product_images w' = product_images w /\ clock w <= clock w'
  /\ is_Some (_supabase_client w')
  /\ trace w' = trace w ++ [StoreSelect image_id]
  /\ call_raises E (product_images w) (StoreSelect image_id) = false
  /\ product_images w !! image_id = Some record.
Proof.
  intros H. apply fetch_product_image_record_run in H as (Hs & Hk & [H|H]).
  - by destruct H as (_ & exc & ?).
  - destruct H as (Ht & Hc & H). unfold lookup_outcome in H. simpl.
    destruct (select_raises E image_id); [done|].
    destruct (product_images w !! image_id); [|done].
    simplify_eq. by split_and!.
Qed.

Lemma fetch_Raise (image_id : string) (w w' : world) (exc : exn) :
  _fetch_product_image_record E image_id w = (Raise exc, w') ->
  product_images w' = product_images w /\ clock w <= clock w'
  /\ (trace w' = trace w \/ trace w' = trace w ++ [StoreSelect image_id]).
Proof.
  intros H. apply fetch_product_image_record_run in H as (Hs & Hk & [H|H]).
  - split_and!; try done. left. by destruct H as [-> _].
  - split_and!; try done. right. apply H.
Qed.

Lemma call_gemini_Return (image_bytes : bytes) (model_id : string) (w w' : world)
    (analysis : json) :
  _call_gemini E image_bytes model_id w = (Return analysis, w') ->
  product_images w' = product_images w /\ clock w <= clock w'
  /\ _supabase_client w' = _supabase_client w
  /\ exists request,
       trace w' = trace w ++ [GenerateContent request]
       /\ forall table, call_raises E table (GenerateContent request) = false.
Proof.
  intros H. apply call_gemini_run in H as (Hs & Hk & Hc & [H|H]).
  - by destruct H as (_ & exc & ?).
  - destruct H as (Ht & _ & H). split_and!; try done.
    eexists. split; [done|]. intros table. unfold answer_outcome in H. simpl.
    by destruct (generate_content E _).
Qed.

Lemma call_gemini_Raise (image_bytes : bytes) (model_id : string) (w w' : world)
    (exc : exn) :
  _call_gemini E image_bytes model_id w = (Raise exc, w') ->
  product_images w' = product_images w /\ clock w <= clock w'
  /\ (trace w' = trace w \/ exists request, trace w' = trace w ++ [GenerateContent request]).
Proof.
  intros H. apply call_gemini_run in H as (Hs & Hk & Hc & [H|H]).
  - split_and!; try done. left. by destruct H as [-> _].
  - destruct H as (Ht & _ & H). split_and!; try done. right. eauto.
Qed.


Lemma the_Some (s : string) : the (Some s) = s.
Proof. done. Qed.

Lemma call_raises_update (image_id : string) (metadata : json) (timestamp : string) :
  update_raises E image_id metadata timestamp = None ->
  forall table, call_raises E table (StoreUpdate image_id metadata timestamp) = false.
Proof. unfold call_raises. by intros ->. Qed.

Lemma download_Return (image_url : string) (w w' : world) (image_bytes : bytes) :
  _download_image E image_url w = (Return image_bytes, w') ->
  product_images w' = product_images w /\ clock w <= clock w'
  /\ _supabase_client w' = _supabase_client w
  /\ trace w' = trace w ++ [HttpGet image_url 20]
  /\ forall table, call_raises E table (HttpGet image_url 20) = false.
Proof. apply download_image_run. Qed.

Lemma download_Raise (image_url : string) (w w' : world) (exc : exn) :
  _download_image E image_url w = (Raise exc, w') ->
  product_images w' = product_images w /\ clock w <= clock w'
  /\ trace w' = trace w ++ [HttpGet image_url 20].
Proof.
  intros H. apply download_image_run in H as (Hs & Hk & _ & Ht & _). by split_and!.
Qed.

End Analyze.

#[local] Arguments truthy : simpl never.
#[local] Arguments the : simpl never.
#[local] Arguments call_raises : simpl never.
#[local] Arguments _analyze : simpl never.

(** Inversion of a run, stage by stage. *)
Ltac run_step :=
  match goal with
  | H : bind _ _ _ = (_, _) |- _ =>
      apply bind_inv in H as [(? & ? & ? & H)|(? & H & ?)]; simplify_eq
  | H : ret _ _ = (_, _) |- _ => unfold ret in H; simplify_eq
  | H : raise _ _ = (_, _) |- _ => unfold raise in H; simplify_eq
  | H : lift _ _ = (_, _) |- _ => unfold lift in H; simplify_eq
  | H : _fetch_product_image_record _ _ _ = (Return _, _) |- _ =>
      apply fetch_Return in H as (? & ? & ? & ? & ? & ?)
  | H : _fetch_product_image_record _ _ _ = (Raise _, _) |- _ =>
      apply fetch_Raise in H as (? & ? & [?|?])
  | H : _download_image _ _ _ = (Return _, _) |- _ =>
      apply download_Return in H as (? & ? & ? & ? & ?)
  | H : _download_image _ _ _ = (Raise _, _) |- _ =>
      apply download_Raise in H as (? & ? & ?)
  | H : _call_gemini _ _ _ _ = (Return _, _) |- _ =>
      apply call_gemini_Return in H as (? & ? & ? & ? & ? & ?)
  | H : _call_gemini _ _ _ _ = (Raise _, _) |- _ =>
      apply call_gemini_Raise in H as (? & ? & [?|[? ?]])
  | H : _update_ai_metadata _ _ _ _ = (_, _) |- _ =>
      let Hu := fresh "Hu" in
      apply update_ai_metadata_run in H as (? & ? & H); [|congruence];
      destruct (update_raises _ _ _ _) eqn:Hu; destruct H as [? ?];
      [|pose proof (call_raises_update _ _ _ _ Hu)]; simplify_eq
  | Hb : truthy ?x = _, H : context [truthy ?x] |- _ =>
      rewrite Hb in H; simpl in H
  | H : (if ?b then _ else _) _ = (_, _) |- _ =>
      let Hb := fresh "Hb" in destruct b eqn:Hb; simpl in H
  end.

(** The calls of a run, read off the trace equations of its stages. *)
Ltac trace_norm :=
  repeat match goal with
         | H : trace ?w = _ |- _ => rewrite ?H in *; clear H
         end;
  rewrite <- ?app_assoc in *; simpl in *.

(** The calls of a run, from its normalised trace equation [H]. *)
Ltac calls_of H :=
  first [ apply app_inv_head in H
        | rewrite <- (app_nil_r (trace _)) in H at 1; apply app_inv_head in H ];
  subst.

Section AnalyzeRuns.

Variable E : externals.

(** The calls of a run come in pipeline order, each issued only after the
    calls before it came back without raising; a run that returns hands back
    the result dictionary, a run that raises has written nothing, and a run
    without an id never talks to the row store. *)
Lemma analyze_calls (image_id image_url : option string) (w w' : world)
    (o : outcome json) :
  _analyze E image_id image_url w = (o, w') ->
  exists calls,
    trace w' = trace w ++ calls
    /\ clock w <= clock w'
    /\ clean E (product_images w) (removelast calls)
    /\ match o with
       | Return result =>
           clean E (product_images w) calls
           /\ exists url analysis, result = analyze_result url analysis
       | Raise _ => product_images w' = product_images w
       end
    /\ (truthy image_id = false ->
        product_images w' = product_images w
        /\ Forall (fun c => is_store_call c = false) calls).
Proof.
  unfold _analyze, clean. intros H. repeat run_step.
  all: trace_norm; eexists; (split; [try reflexivity; symmetry; apply app_nil_r|]).
  all: split_and!; try lia; try congruence; try (intros _; split);
    try congruence; simpl; repeat constructor; eauto.
Qed.

(** A run that issues the update was given a non-empty id, found its row
    with the select that opens the run, and downloaded and analysed the
    image before; the update is its last call, stamped with a clock reading
    taken during the run, and its outcome is the outcome of the run. *)
Lemma analyze_update (image_id image_url : option string) (w w' : world)
    (o : outcome json) (calls : list call) (i : string) (metadata : json)
    (timestamp : string) :
  _analyze E image_id image_url w = (o, w') ->
  trace w' = trace w ++ calls ->
  In (StoreUpdate i metadata timestamp) calls ->
  exists record url request now,
    image_id = Some i /\ i <> ""
    /\ product_images w !! i = Some record
    /\ _select_image_url record = Return url
    /\ calls = [StoreSelect i; HttpGet url 20; GenerateContent request;
                StoreUpdate i metadata timestamp]
    /\ clean E (product_images w) [StoreSelect i; HttpGet url 20; GenerateContent request]
    /\ clock w <= now <= clock w' /\ timestamp = isoformat E now
    /\ match update_raises E i metadata timestamp with
       | None =>
           o = Return (analyze_result url metadata)
           /\ product_images w' =
                alter (with_payload metadata timestamp) i (product_images w)
       | Some exc =>
           o = Raise (if is_APIError exc
                      then Exn RuntimeError
                             ("Failed to update product_images.ai_metadata: "
                              +:+ exn_str exc)
                      else exc)
           /\ product_images w' = product_images w
       end.
Proof.
  unfold _analyze, clean. intros H. repeat run_step.
  all: trace_norm; intros Hc Hin; calls_of Hc.
  all: simpl in Hin; intuition (try discriminate); simplify_eq.
  all: match goal with
       | Hu : update_raises _ _ _ (isoformat _ (clock ?x)) = _ |- _ =>
           rewrite Hu; do 3 eexists; exists (clock x)
       end.
  all: destruct image_id as [i|]; [|done].
  all: match goal with
       | H : truthy _ = true |- _ => apply truthy_Some in H as [_ ?]
       end.
  all: rewrite ?the_Some in *.
  all: split_and!; try done; try lia; try congruence; by repeat constructor.
Qed.
End AnalyzeRuns.

(** * The handler *)

(** A falsy id is no id: the resolution goes by [image_url] alone. *)
Lemma analyze_without_id (E : externals) (image_id image_url : option string) :
  truthy image_id = false ->
  _analyze E image_id image_url = _analyze E None image_url.
Proof. unfold _analyze. by intros ->. Qed.

(** Without id and without URL the resolution fails on the spot. *)
Lemma analyze_no_input (E : externals) (image_id image_url : option string) (w : world) :
  truthy image_id = false ->
  truthy image_url = false ->
  _analyze E image_id image_url w =
    (Raise (Exn ValueError "No image URL provided or found in Supabase record"), w).
Proof. intros Hid Hurl. unfold _analyze, bind. rewrite Hid. simpl. by rewrite Hurl. Qed.

(** Without id, a run that returns reports the caller's URL as its source. *)
Lemma analyze_without_id_Return (E : externals) (image_id image_url : option string)
    (w w' : world) (result : json) :
  truthy image_id = false ->
  _analyze E image_id image_url w = (Return result, w') ->
  truthy image_url = true
  /\ exists analysis, result = analyze_result (the image_url) analysis.
Proof.
  unfold _analyze. intros Hid H. rewrite Hid in H. repeat run_step.
  apply negb_false_iff in Hb. eauto.
Qed.

(** Any method but POST: the fixed 405 answer, and nothing else happens. *)
Lemma not_post_run (E : externals) (request : request) (w : world) :
  method request <> "POST" ->
  analyze_product_image E request w =
    (Return {| resp_body := Text "Method Not Allowed"; resp_status := 405;
               resp_headers := [] |}, w).
Proof.
  intros Hm. unfold analyze_product_image.
  by destruct (String.eqb_spec (method request) "POST").
Qed.

(** A POST on which [get_json] raises: the fixed 400 answer, and nothing
    else happens. *)
Lemma unreadable_run (E : externals) (request : request) (w : world) (exc : exn) :
  method request = "POST" ->
  get_json_silent request = Raise exc ->
  analyze_product_image E request w =
    (Return {| resp_body := JsonDumps (JObj [("error", JStr "Invalid JSON body")]);
               resp_status := 400;
               resp_headers := [("Content-Type", "application/json")] |}, w).
Proof. intros Hm Hj. unfold analyze_product_image. by rewrite Hm, Hj. Qed.

(** A POST whose body is a truthy JSON value other than an object: the
    [AttributeError] of [payload.get] leaves the handler. *)
Lemma not_an_object_run (E : externals) (request : request) (w : world)
    (type_name : string) :
  method request = "POST" ->
  get_json_silent request = Return (OtherBody true type_name) ->
  analyze_product_image E request w =
    (Raise (Exn AttributeError ("'" +:+ type_name +:+ "' object has no attribute 'get'")), w).
Proof. intros Hm Hj. unfold analyze_product_image. by rewrite Hm, Hj. Qed.

(** The answer to what [_analyze] ends with, spelled out. *)
Lemma response_of_Return (result : json) :
  response_of (Return result)
  = {| resp_body := JsonDumps result; resp_status := 200;
       resp_headers := [("Content-Type", "application/json")] |}.
Proof. done. Qed.

Lemma response_of_Raise (exc : exn) :
  response_of (Raise exc)
  = {| resp_body := JsonDumps (JObj [("error", JStr (exn_str exc))]);
       resp_status := if is_ValueError exc then 400 else 500;
       resp_headers := [("Content-Type", "application/json")] |}.
Proof. done. Qed.

Lemma response_of_200 (o : outcome json) :
  resp_status (response_of o) = 200 -> exists result, o = Return result.
Proof. destruct o as [result|exc]; [eauto|]. simpl. by destruct (is_ValueError exc). Qed.

(** Every other POST is answered from a run of [_analyze] on the two fields
    of the payload. *)
Lemma handler_of_analyze (E : externals) (request : request) (w : world) :
  method request = "POST" ->
  (forall exc, get_json_silent request <> Raise exc) ->
  (forall type_name, get_json_silent request <> Return (OtherBody true type_name)) ->
  analyze_product_image E request w
  = (Return (response_of (_analyze E (product_image_id (supplied_payload request))
                            (image_url (supplied_payload request)) w).1),
     (_analyze E (product_image_id (supplied_payload request))
        (image_url (supplied_payload request)) w).2).
Proof.
  intros Hm Hj Ho. unfold analyze_product_image, supplied_payload. rewrite Hm. simpl.
  destruct (get_json_silent request) as [[|p|[|] type_name]|exc]; simpl;
    [| |by destruct (Ho type_name)| |by destruct (Hj exc)].
  - by rewrite ?analyze_no_input.
  - destruct (_analyze E _ _ w) as [[result|exc] w']; simpl; [done|].
    by destruct (is_ValueError exc).
  - by rewrite ?analyze_no_input.
Qed.

(** Every run of the handler is the identity on the world or a run of
    [_analyze]; only the latter can be answered with 200. *)
Lemma handler_cases (E : externals) (request : request) (w : world) :
  (analyze_product_image E request w).2 = w
  /\ (forall response,
        (analyze_product_image E request w).1 = Return response ->
        resp_status response <> 200)
  /\ (method request <> "POST"
      \/ (method request = "POST" /\ exists exc, get_json_silent request = Raise exc)
      \/ (method request = "POST"
          /\ exists type_name, get_json_silent request = Return (OtherBody true type_name)))
  \/ method request = "POST"
     /\ exists o w',
          _analyze E (product_image_id (supplied_payload request))
            (image_url (supplied_payload request)) w = (o, w')
          /\ analyze_product_image E request w = (Return (response_of o), w').
Proof.
  destruct (String.eqb_spec (method request) "POST") as [Hm|Hm].
  - destruct (get_json_silent request) as [data|exc] eqn:Hj.
    + assert ((exists type_name, data = OtherBody true type_name)
              \/ forall type_name, data <> OtherBody true type_name) as [[type_name ->]|Hother].
      { destruct data as [|p|[|] type_name]; eauto. }
      * left. rewrite (not_an_object_run E request w type_name) by done.
        split_and!; [done|done|]. right. right. eauto.
      * right. split; [done|].
        destruct (_analyze E (product_image_id (supplied_payload request))
                    (image_url (supplied_payload request)) w) as [o w'] eqn:Hrun.
        exists o, w'. split; [done|].
        rewrite handler_of_analyze, Hrun; [done|done|by rewrite Hj|].
        intros type_name. rewrite Hj. intros [= ->]. by apply (Hother type_name).
    + left. rewrite (unreadable_run E request w exc) by done.
      split_and!; [done| |right; left; eauto]. by intros response [= <-].
  - left. rewrite not_post_run by done. simpl.
    split_and!; [done| |by left]. by intros response [= <-].
Qed.

(** Either no stage ran, or the world is the one [_analyze] left. *)
Lemma handler_world (E : externals) (request : request) (w : world) :
  (analyze_product_image E request w).2 = w
  \/ exists o,
       _analyze E (product_image_id (supplied_payload request))
         (image_url (supplied_payload request)) w
       = (o, (analyze_product_image E request w).2).
Proof.
  destruct (handler_cases E request w) as [(Hw & _)|(_ & o & w' & Hrun & ->)]; eauto.
Qed.

(** Every call of a request was issued by [_analyze]. *)
Lemma handler_call (E : externals) (request : request) (w : world)
    (calls : list call) (c : call) :
  trace (analyze_product_image E request w).2 = trace w ++ calls ->
  In c calls ->
  exists o w',
    _analyze E (product_image_id (supplied_payload request))
      (image_url (supplied_payload request)) w = (o, w')
    /\ analyze_product_image E request w = (Return (response_of o), w').
Proof.
  intros Ht Hin.
  destruct (handler_cases E request w) as [(Hw & _)|(_ & o & w' & Hrun & Hresp)]; [|eauto].
  rewrite Hw in Ht. rewrite <- (app_nil_r (trace w)) in Ht at 1.
  apply app_inv_head in Ht. by subst.
Qed.

(** A POST of an object is answered from the run of [_analyze] on its
    fields. *)
Lemma post_object_run (E : externals) (request : request) (w : world) (p : payload) :
  method request = "POST" ->
  get_json_silent request = Return (ObjectBody p) ->
  analyze_product_image E request w
  = (Return (response_of (_analyze E (product_image_id p) (image_url p) w).1),
     (_analyze E (product_image_id p) (image_url p) w).2).
Proof.
  intros Hm Hj. rewrite handler_of_analyze; [|done|by rewrite Hj..].
  unfold supplied_payload. by rewrite Hj.
Qed.

Lemma get_supabase_client_available (E : externals) (w : world) :
  store_client_available E w ->
  exists client w1, _get_supabase_client E w = (Return client, w1).
Proof.
  unfold _get_supabase_client, os_environ, create_client, bind, ret.
  intros [[c Hc]|(u & k & Hu & Hk & Hcr)].
  - rewrite Hc. eauto.
  - rewrite Hu, Hk, Hcr. destruct (_supabase_client w); eauto.
Qed.

(** The lookup, once the client can be had: the select is issued, and its
    outcome is the outcome of the lookup. *)
Lemma fetch_product_image_record_eq (E : externals) (image_id : string) (w : world) :
  store_client_available E w ->
  exists w1,
    _fetch_product_image_record E image_id w
    = (lookup_outcome E image_id (product_images w), w1)
    /\ trace w1 = trace w ++ [StoreSelect image_id]
    /\ product_images w1 = product_images w
    /\ is_Some (_supabase_client w1)
    /\ _gemini_client w1 = _gemini_client w.
Proof.
  intros Hav. destruct (get_supabase_client_available E w Hav) as (client & w0 & Hc).
  pose proof (get_supabase_client_run E _ _ _ Hc) as (Hs & _ & Ht & Hg & Hcl).
  exists (issue E (StoreSelect image_id) w0).
  unfold _fetch_product_image_record, lookup_outcome, bind, select_eq_single_execute.
  rewrite Hc, Hs. simpl. rewrite Ht, Hs, Hg, Hcl. split_and!; eauto.
  destruct (select_raises E image_id); [done|].
  by destruct (product_images w !! image_id).
Qed.

(** * The claims about the handler *)

(** C5, as stated: the body of the 405 answer to a GET is the text
    "Method Not Allowed", not the empty string. *)
Lemma method_not_allowed_body_not_empty :
  let request := {| method := "GET"; get_json_silent := Return NoBody |} in
  exists response,
    (analyze_product_image (Sample.services [] None) request Sample.COLD).1 = Return response
    /\ resp_status response = 405
    /\ resp_body response = Text "Method Not Allowed"
    /\ resp_body response <> Text "".
Proof. simpl. eexists. split; [reflexivity|]. by split_and!. Qed.

(** C5, amended: a request whose method is not POST is answered with status
    405 and the plain-text body "Method Not Allowed" (no JSON error object,
    no header), and no stage of the pipeline runs: the body is not read, no
    call is issued, and the world is left as it was. *)
Theorem method_not_allowed (E : externals) (request : request) (w : world) :
  method request <> "POST" ->
  let run := analyze_product_image E request w in
  run.1 = Return {| resp_body := Text "Method Not Allowed"; resp_status := 405;
                    resp_headers := [] |}
  /\ run.2 = w
  /\ trace run.2 = trace w.
Proof. intros Hm. simpl. rewrite not_post_run by done. by split_and!. Qed.

Lemma method_not_allowed_witness :
  let request := {| method := "GET"; get_json_silent := Return NoBody |} in
  let run := analyze_product_image (Sample.services [] None) request Sample.COLD in
  run.1 = Return {| resp_body := Text "Method Not Allowed"; resp_status := 405;
                    resp_headers := [] |}
  /\ run.2 = Sample.COLD.
Proof.
  destruct (method_not_allowed (Sample.services [] None)
              {| method := "GET"; get_json_silent := Return NoBody |} Sample.COLD)
    as (Hresponse & Hworld & _); [discriminate|].
  by split.
Defined.

(** C9, as stated: a body of two thousand opening brackets is not
    well-formed JSON, and the parser gives up on it with a [RecursionError],
    which [silent=True] does not swallow; the request fails at the parse,
    with "Invalid JSON body", and is not handled as the empty object is. *)
Lemma deeply_nested_body_fails_at_parse :
  let request :=
    {| method := "POST";
       get_json_silent := Raise (Exn RuntimeError "maximum recursion depth exceeded") |} in
  let empty_object :=
    {| method := "POST"; get_json_silent := Return (ObjectBody empty_payload) |} in
  analyze_product_image (Sample.services [] None) request Sample.COLD
  = (Return {| resp_body := JsonDumps (JObj [("error", JStr "Invalid JSON body")]);
               resp_status := 400;
               resp_headers := [("Content-Type", "application/json")] |}, Sample.COLD)
  /\ analyze_product_image (Sample.services [] None) empty_object Sample.COLD
     = (Return {| resp_body :=
                    JsonDumps (JObj [("error",
                                      JStr "No image URL provided or found in Supabase record")]);
                  resp_status := 400;
                  resp_headers := [("Content-Type", "application/json")] |}, Sample.COLD)
  /\ analyze_product_image (Sample.services [] None) request Sample.COLD
     <> analyze_product_image (Sample.services [] None) empty_object Sample.COLD.
Proof. by split_and!. Qed.

(** C9, amended: a POST whose body is not well-formed JSON goes one of two
    ways.  When the parser's error is swallowed ([get_json(silent=True)]
    answers [None]), the body is handled as the empty object [{}] is: the
    request goes on to input resolution and fails there, before any call,
    with the missing-image-input [ValueError] and status 400.  When the
    parser raises what [silent=True] does not swallow, the request fails at
    the parse, with status 400 and the message "Invalid JSON body", and
    nothing else happens. *)
Theorem malformed_body_outcomes (E : externals) (request : request) (w : world) :
  method request = "POST" ->
  (get_json_silent request = Return NoBody ->
   analyze_product_image E request w
   = analyze_product_image E
       {| method := "POST"; get_json_silent := Return (ObjectBody empty_payload) |} w
   /\ _analyze E None None w
      = (Raise (Exn ValueError "No image URL provided or found in Supabase record"), w)
   /\ analyze_product_image E request w
      = (Return {| resp_body :=
                     JsonDumps (JObj [("error",
                                       JStr "No image URL provided or found in Supabase record")]);
                   resp_status := 400;
                   resp_headers := [("Content-Type", "application/json")] |}, w))
  /\ (forall exc,
        get_json_silent request = Raise exc ->
        analyze_product_image E request w
        = (Return {| resp_body := JsonDumps (JObj [("error", JStr "Invalid JSON body")]);
                     resp_status := 400;
                     resp_headers := [("Content-Type", "application/json")] |}, w)).
Proof.
  intros Hm. split.
  - intros Hj. unfold analyze_product_image. rewrite Hm, Hj. simpl.
    by rewrite analyze_no_input.
  - intros exc Hj. by apply (unreadable_run E request w exc).
Qed.

Lemma malformed_body_outcomes_witness :
  analyze_product_image (Sample.services [] None)
    {| method := "POST"; get_json_silent := Return NoBody |} Sample.COLD
  = (Return {| resp_body :=
                 JsonDumps (JObj [("error",
                                   JStr "No image URL provided or found in Supabase record")]);
               resp_status := 400;
               resp_headers := [("Content-Type", "application/json")] |}, Sample.COLD).
Proof.
  apply (proj1 (malformed_body_outcomes (Sample.services [] None)
                  {| method := "POST"; get_json_silent := Return NoBody |} Sample.COLD
                  eq_refl)).
  reflexivity.
Defined.

(** C3, the code on the claim's requests: a POST that supplies a (non-empty)
    [product_image_id] of which the table has no row does not reach the
    record-not-found [ValueError]: the select itself raises, with the
    [APIError] of [.single()] for zero rows, and the handler answers with
    status 500 and that error's text, not with status 400 and
    "No product_images row found for id '<id>'"; the select is the only
    call, and nothing is downloaded, analysed or written. *)
Theorem record_not_found_status_500 (E : externals) (request : request) (w : world)
    (p : payload) (id : string) :
  method request = "POST" ->
  get_json_silent request = Return (ObjectBody p) ->
  product_image_id p = Some id ->
  id <> "" ->
  store_client_available E w ->
  select_raises E id = None ->
  product_images w !! id = None ->
  exists w',
    _fetch_product_image_record E id w = (Raise (Exn APIError (zero_rows_text E)), w')
    /\ analyze_product_image E request w
       = (Return {| resp_body := JsonDumps (JObj [("error", JStr (zero_rows_text E))]);
                    resp_status := 500;
                    resp_headers := [("Content-Type", "application/json")] |}, w')
    /\ (analyze_product_image E request w).1
       <> Return {| resp_body :=
                      JsonDumps (JObj [("error",
                                        JStr ("No product_images row found for id '"
                                              +:+ id +:+ "'"))]);
                    resp_status := 400;
                    resp_headers := [("Content-Type", "application/json")] |}
    /\ trace w' = trace w ++ [StoreSelect id]
    /\ product_images w' = product_images w.
Proof.
  intros Hm Hj Hid Hne Hav Hsel Hrow.
  destruct (fetch_product_image_record_eq E id w Hav) as (w1 & Hf & Ht & Hs & _).
  unfold lookup_outcome in Hf. rewrite Hsel, Hrow in Hf.
  assert (analyze_product_image E request w
          = (Return (response_of (Raise (Exn APIError (zero_rows_text E)))), w1)) as Hrun.
  { rewrite (post_object_run E request w p Hm Hj), Hid.
    unfold _analyze, bind. by rewrite (truthy_nonempty _ Hne), the_Some, Hf. }
  exists w1. rewrite Hrun. by split_and!.
Qed.

Lemma record_not_found_status_500_witness :
  (analyze_product_image (Sample.services [] None) (Sample.post (Some "abc") None)
     Sample.COLD).1
  = Return {| resp_body := JsonDumps (JObj [("error", JStr Sample.ZERO_ROWS)]);
              resp_status := 500;
              resp_headers := [("Content-Type", "application/json")] |}.
Proof.
  destruct (record_not_found_status_500 (Sample.services [] None)
              (Sample.post (Some "abc") None) Sample.COLD
              {| product_image_id := Some "abc"; image_url := None |} "abc")
    as (w' & _ & -> & _); try reflexivity.
  - discriminate.
  - right. by exists "https://store.example", "service-role-key".
Defined.

(** What the handler makes of a model answer whose deciding text does not
    parse: the [ValueError] of the scan is answered as a client error. *)
Lemma invalid_json_status (E : externals) (request : request) (w w' : world)
    (raw : string) :
  method request = "POST" ->
  (forall type_name, get_json_silent request <> Return (OtherBody true type_name)) ->
  _analyze E (product_image_id (supplied_payload request))
    (image_url (supplied_payload request)) w
  = (Raise (Exn ValueError ("Gemini response is not valid JSON: " +:+ raw)), w') ->
  (analyze_product_image E request w).1
  = Return {| resp_body :=
                JsonDumps (JObj [("error",
                                  JStr ("Gemini response is not valid JSON: " +:+ raw))]);
              resp_status := 400;
              resp_headers := [("Content-Type", "application/json")] |}.
Proof.
  intros Hm Ho Hrun.
  destruct (get_json_silent request) as [data|exc] eqn:Hj.
  - rewrite handler_of_analyze, Hrun; [done|done|by rewrite Hj..].
  - unfold supplied_payload in Hrun. rewrite Hj in Hrun.
    by rewrite analyze_no_input in Hrun.
Qed.

(** C2, the code at the failing input: the POST of an image URL to which the
    model answers with the single text segment "not json" is answered with
    status 400, not 500; the message carries the raw text. *)
Theorem non_json_answer_status_400 :
  (analyze_product_image (Sample.services [Some "not json"] None)
     (Sample.post None (Some "https://x/img.jpg")) Sample.COLD).1
  = Return {| resp_body :=
                JsonDumps (JObj [("error", JStr "Gemini response is not valid JSON: not json")]);
              resp_status := 400;
              resp_headers := [("Content-Type", "application/json")] |}.
Proof. reflexivity. Qed.

(** C4, the code at the failing input: on the candidate whose segments are
    "not json" and then "{}", the first segment whose text parses as JSON is
    the second one, with value [{}]; [_call_gemini] raises on the first
    segment instead and never looks at the second. *)
Theorem first_text_segment_decides :
  let parts := [ {| text := Some "not json" |}; {| text := Some "{}" |} ] in
  first_segment_that_parses Sample.loads parts = Some (JObj [])
  /\ (_call_gemini (Sample.services [Some "not json"; Some "{}"] None)
        Sample.JPEG "gemini-2.5-flash" Sample.COLD).1
     = Raise (Exn ValueError "Gemini response is not valid JSON: not json").
Proof. split; reflexivity. Qed.

(** A run with an id that returns has issued the update. *)
Lemma analyze_Return_updates (E : externals) (id : string) (image_url : option string)
    (w w' : world) (result : json) :
  id <> "" ->
  _analyze E (Some id) image_url w = (Return result, w') ->
  exists calls metadata timestamp,
    trace w' = trace w ++ calls /\ In (StoreUpdate id metadata timestamp) calls.
Proof.
  intros Hne H. unfold _analyze in H. rewrite (truthy_nonempty _ Hne), the_Some in H.
  repeat run_step.
  trace_norm. eexists _, _, _. split; [done|]. simpl. eauto 10.
Qed.

(** Without id, a run with a URL opens with the download of that URL. *)
Lemma analyze_without_id_download (E : externals) (image_id image_url : option string)
    (w w' : world) (o : outcome json) :
  truthy image_id = false ->
  truthy image_url = true ->
  _analyze E image_id image_url w = (o, w') ->
  exists rest, trace w' = trace w ++ HttpGet (the image_url) 20 :: rest.
Proof.
  unfold _analyze. intros Hid Hurl H. rewrite Hid in H.
  apply bind_inv in H as [(resolved & w1 & Hr & H)|(exc & Hr & _)];
    unfold ret in Hr; simplify_eq.
  simpl in H. rewrite Hurl in H. simpl in H. repeat run_step.
  all: trace_norm; eauto.
Qed.


(** C6: after a request that supplied a record id and was answered with
    status 200, the row of that id holds, as [ai_metadata], the analysis of
    the response body, whatever it held before, and, as [updated_at], the
    ISO form of a clock reading taken between the start and the end of the
    request; the row's other columns and the other rows are as they were.
    The body is the object of [source_image_url], the URL resolved from the
    row, and [analysis]. *)
Theorem analysis_round_trip (E : externals) (request : request) (w : world) (id : string)
    (response : response) :
  product_image_id (supplied_payload request) = Some id ->
  id <> "" ->
  (analyze_product_image E request w).1 = Return response ->
  resp_status response = 200 ->
  let w' := (analyze_product_image E request w).2 in
  exists before url analysis now after,
    product_images w !! id = Some before
    /\ _select_image_url before = Return url
    /\ response
       = {| resp_body :=
              JsonDumps (JObj [("source_image_url", JStr url); ("analysis", analysis)]);
            resp_status := 200;
            resp_headers := [("Content-Type", "application/json")] |}
    /\ product_images w' !! id = Some after
    /\ ai_metadata after = Some analysis
    /\ updated_at after = Some (isoformat E now)
    /\ clock w <= now <= clock w'
    /\ thumbnail_url after = thumbnail_url before
    /\ primary_image_url after = primary_image_url before
    /\ image_urls after = image_urls before
    /\ forall other, other <> id -> product_images w' !! other = product_images w !! other.
Proof.
  intros Hid Hne Hresp H200.
  destruct (handler_cases E request w) as [(_ & Hs & _)|(_ & o & w' & Hrun & Hrun')];
    [by destruct (Hs response)|].
  rewrite Hrun' in *. simpl in *. injection Hresp as <-.
  destruct (response_of_200 _ H200) as [result ->]. rewrite Hid in Hrun.
  destruct (analyze_Return_updates _ _ _ _ _ _ Hne Hrun)
    as (calls & metadata & timestamp & Ht & Hin).
  destruct (analyze_update _ _ _ _ _ _ _ _ _ _ Hrun Ht Hin)
    as (before & url & _ & now & _ & _ & Hrow & Hurl & _ & _ & Hnow & -> & Hup).
  destruct (update_raises E id metadata _); [by destruct Hup|].
  destruct Hup as [[= ->] ->].
  exists before, url, metadata, now, (with_payload metadata (isoformat E now) before).
  split_and!; try done; try lia.
  - by rewrite lookup_alter_eq, Hrow.
  - intros other Hother. by rewrite lookup_alter_ne.
Qed.

Lemma analysis_round_trip_witness :
  let run :=
    analyze_product_image (Sample.services [Some "{}"] None) (Sample.post (Some "r1") None)
      Sample.COLD in
  exists after,
    run.1 = Return {| resp_body :=
                        JsonDumps (JObj [("source_image_url", JStr "https://x/thumb.jpg");
                                         ("analysis", JObj [])]);
                      resp_status := 200;
                      resp_headers := [("Content-Type", "application/json")] |}
    /\ product_images run.2 !! "r1" = Some after
    /\ ai_metadata after = Some (JObj [])
    /\ updated_at after = Some "2023-11-14T22:13:20+00:00".
Proof.
  destruct (analysis_round_trip (Sample.services [Some "{}"] None)
              (Sample.post (Some "r1") None) Sample.COLD "r1"
              {| resp_body :=
                   JsonDumps (JObj [("source_image_url", JStr "https://x/thumb.jpg");
                                    ("analysis", JObj [])]);
                 resp_status := 200;
                 resp_headers := [("Content-Type", "application/json")] |})
    as (before & url & analysis & now & after & _ & _ & Hbody & Hrow & Hmeta & _);
    [reflexivity | discriminate | reflexivity | reflexivity |].
  exists after. injection Hbody as _ <-. split_and!; [reflexivity|done|done|].
  vm_compute in Hrow. injection Hrow as <-. reflexivity.
Defined.

(** C7: a request that supplies no [product_image_id] never reaches the row
    store, however the run ends: its calls hold no select and no update, and
    the table is as it was.  And whenever a run issues an update, the request
    supplied that (non-empty) id, and the run opened with the select of that
    id, which came back with the row. *)
Theorem persistence_only_with_record (E : externals) (request : request) (w : world) :
  let w' := (analyze_product_image E request w).2 in
  exists calls,
    trace w' = trace w ++ calls
    /\ (product_image_id (supplied_payload request) = None ->
        Forall (fun c => is_store_call c = false) calls
        /\ product_images w' = product_images w)
    /\ (forall id metadata timestamp,
          In (StoreUpdate id metadata timestamp) calls ->
          product_image_id (supplied_payload request) = Some id
          /\ id <> ""
          /\ is_Some (product_images w !! id)
          /\ call_raises E (product_images w) (StoreSelect id) = false
          /\ exists between,
               calls = StoreSelect id :: between ++ [StoreUpdate id metadata timestamp]).
Proof.
  simpl. destruct (handler_world E request w) as [->|[o Hrun]].
  - exists []. rewrite app_nil_r. split_and!; [done|done|]. by intros ??? [].
  - destruct (analyze_calls _ _ _ _ _ _ Hrun) as (calls & Ht & _ & _ & _ & Hnone).
    exists calls. split_and!; [done|..].
    + intros Hid. rewrite Hid in Hnone. destruct Hnone as [? ?]; done.
    + intros id metadata timestamp Hin.
      destruct (analyze_update _ _ _ _ _ _ _ _ _ _ Hrun Ht Hin)
        as (record & url & req & now & Hid & Hne & Hrow & _ & -> & Hclean & _).
      split_and!; try done.
      * by apply Forall_cons in Hclean as [? _].
      * by exists [HttpGet url 20; GenerateContent req].
Qed.

Lemma persistence_only_with_record_witness :
  Forall (fun c => is_store_call c = false)
    (trace (analyze_product_image (Sample.services [Some "{}"] None)
              (Sample.post None (Some "https://x/img.jpg")) Sample.COLD).2).
Proof.
  destruct (persistence_only_with_record (Sample.services [Some "{}"] None)
              (Sample.post None (Some "https://x/img.jpg")) Sample.COLD)
    as (calls & Ht & Hnone & _).
  rewrite Ht. apply Hnone. reflexivity.
Defined.




(** C10: a request whose [product_image_id] is the empty string is handled
    exactly as the same request without the id: the row store is neither
    queried nor written, however the run ends; with a non-empty [image_url]
    the run opens with the download of that URL, and a 200 answer reports it
    as the source; with an empty or absent [image_url] a POST fails, before
    any call, with the missing-image-input error and status 400. *)
Theorem empty_id_is_no_id (E : externals) (request : request) (w : world) (p : payload) :
  get_json_silent request = Return (ObjectBody p) ->
  product_image_id p = Some "" ->
  let without_id :=
    {| method := method request;
       get_json_silent :=
         Return (ObjectBody {| product_image_id := None; image_url := image_url p |}) |} in
  let run := analyze_product_image E request w in
  run = analyze_product_image E without_id w
  /\ product_images run.2 = product_images w
  /\ (exists calls,
        trace run.2 = trace w ++ calls
        /\ Forall (fun c => is_store_call c = false) calls
        /\ (method request = "POST" -> truthy (image_url p) = true ->
            exists rest, calls = HttpGet (the (image_url p)) 20 :: rest))
  /\ (forall response,
        run.1 = Return response ->
        resp_status response = 200 ->
        exists analysis,
          response
          = {| resp_body :=
                 JsonDumps (JObj [("source_image_url", JStr (the (image_url p)));
                                  ("analysis", analysis)]);
               resp_status := 200;
               resp_headers := [("Content-Type", "application/json")] |})
  /\ (method request = "POST" -> truthy (image_url p) = false ->
      run
      = (Return {| resp_body :=
                     JsonDumps (JObj [("error",
                                       JStr "No image URL provided or found in Supabase record")]);
                   resp_status := 400;
                   resp_headers := [("Content-Type", "application/json")] |}, w)).
Proof.
  intros Hj Hid. simpl.
  assert (supplied_payload request = p) as Hp by (unfold supplied_payload; by rewrite Hj).
  assert (truthy (product_image_id p) = false) as Hfalsy by by rewrite Hid.
  split_and!.
  - unfold analyze_product_image. rewrite Hj. simpl.
    by rewrite (analyze_without_id E _ _ Hfalsy).
  - destruct (handler_world E request w) as [->|[o Hrun]]; [done|].
    rewrite Hp in Hrun.
    by destruct (analyze_calls _ _ _ _ _ _ Hrun) as (_ & _ & _ & _ & _ & [? _]).
  - destruct (String.eqb_spec (method request) "POST") as [Hm|Hm].
    + rewrite (post_object_run E request w p Hm Hj). simpl.
      destruct (_analyze E (product_image_id p) (image_url p) w) as [o w'] eqn:Hrun.
      destruct (analyze_calls _ _ _ _ _ _ Hrun) as (calls & Ht & _ & _ & _ & [_ Hcalls]);
        [done|].
      exists calls. split_and!; try done.
      intros _ Hurl.
      destruct (analyze_without_id_download _ _ _ _ _ _ Hfalsy Hurl Hrun) as [rest Hrest].
      exists rest. simpl in Hrest. rewrite Ht in Hrest. by apply app_inv_head in Hrest.
    + rewrite not_post_run by done. exists []. rewrite app_nil_r. by split_and!.
  - intros response Hresp H200.
    destruct (handler_cases E request w) as [(_ & Hs & _)|(_ & o & w' & Hrun & Hrun')];
      [by destruct (Hs response)|].
    rewrite Hrun' in Hresp. simpl in Hresp. injection Hresp as <-.
    destruct (response_of_200 _ H200) as [result ->]. rewrite Hp in Hrun.
    destruct (analyze_without_id_Return _ _ _ _ _ _ Hfalsy Hrun) as (_ & analysis & ->).
    by exists analysis.
  - intros Hm Hurl. rewrite (post_object_run E request w p Hm Hj).
    by rewrite analyze_no_input.
Qed.

Lemma empty_id_is_no_id_witness :
  analyze_product_image (Sample.services [Some "{}"] None)
    (Sample.post (Some "") (Some "https://x/img.jpg")) Sample.COLD
  = analyze_product_image (Sample.services [Some "{}"] None)
      (Sample.post None (Some "https://x/img.jpg")) Sample.COLD.
Proof.
  apply (empty_id_is_no_id (Sample.services [Some "{}"] None)
           (Sample.post (Some "") (Some "https://x/img.jpg")) Sample.COLD
           {| product_image_id := Some ""; image_url := Some "https://x/img.jpg" |});
    reflexivity.
Defined.

(** The scenario of the specification: the POST of an image URL alone, the
    model answering with JSON, is answered with 200, the URL as source and the
    parsed answer as analysis. *)
Example post_image_url_scenario :
  (analyze_product_image (Sample.services [Some "{}"] None)
     (Sample.post None (Some "https://x/img.jpg")) Sample.COLD).1
  = Return {| resp_body :=
                JsonDumps (JObj [("source_image_url", JStr "https://x/img.jpg");
                                 ("analysis", JObj [])]);
              resp_status := 200;
              resp_headers := [("Content-Type", "application/json")] |}.
Proof. reflexivity. Qed.

(** * More on the stages *)

Section MoreStages.

Variable E : externals.

Lemma download_image_outcome (image_url : string) (w w' : world) (o : outcome bytes) :
  _download_image E image_url w = (o, w') ->
  o = download_outcome E image_url
  /\ product_images w' = product_images w /\ clock w <= clock w'
  /\ _supabase_client w' = _supabase_client w
  /\ _gemini_client w' = _gemini_client w
  /\ trace w' = trace w ++ [HttpGet image_url 20].
Proof.
  unfold _download_image, download_outcome, bind, http_get, ret, raise. simpl.
  destruct (requests_get E image_url 20) as [response|exc].
  - destruct (raise_for_status response); intros [= <- <-]; simpl;
      split_and!; try done; lia.
  - intros [= <- <-]. simpl. split_and!; try done; lia.
Qed.

End MoreStages.

(** Inversion of a run that keeps what the download and the model call
    ended with. *)
Ltac rich_step :=
  first
    [ match goal with
      | H : _download_image _ _ _ = (_, _) |- _ =>
          apply download_image_outcome in H as (? & ? & ? & ? & ? & ?)
      | H : _call_gemini _ _ _ _ = (_, _) |- _ =>
          apply call_gemini_run in H as (? & ? & ? & [(? & ? & ?)|(? & ? & ?)]);
          simplify_eq
      end
    | run_step ].

Section MoreRuns.

Variable E : externals.

(** A run that calls the model has downloaded the image just before, from
    the URL of the row (after the select) or from the caller's URL (first
    call of the run), and sends the downloaded bytes with the configured
    model id; what comes after is decided by what is made of the answer. *)
Lemma analyze_generate (image_id image_url : option string) (w w' : world)
    (o : outcome json) (calls : list call) (request : generate_content_request) :
  _analyze E image_id image_url w = (o, w') ->
  trace w' = trace w ++ calls ->
  In (GenerateContent request) calls ->
  exists source image_bytes after,
    calls = (if truthy image_id then [StoreSelect (the image_id)] else [])
            ++ [HttpGet source 20; GenerateContent request] ++ after
    /\ (truthy image_id = false -> image_url = Some source)
    /\ (truthy image_id = true ->
        exists record, product_images w !! the image_id = Some record
                       /\ _select_image_url record = Return source)
    /\ download_outcome E source = Return image_bytes
    /\ request = generate_request (configured_model E) image_bytes
    /\ match answer_outcome E request with
       | Raise exc =>
           o = Raise exc /\ after = [] /\ product_images w' = product_images w
       | Return analysis =>
           if truthy image_id
           then exists timestamp, after = [StoreUpdate (the image_id) analysis timestamp]
           else after = [] /\ o = Return (analyze_result source analysis)
                /\ product_images w' = product_images w
       end.
Proof.
  unfold _analyze. intros H. repeat rich_step.
  all: trace_norm; intros Hc Hin; calls_of Hc.
  all: simpl in Hin; intuition (try discriminate); simplify_eq.
  all: rewrite ?the_Some in *.
  all: match goal with H : _ = answer_outcome _ _ |- _ => rewrite <- H end.
  all: match goal with
       | H : Return ?b = download_outcome _ ?u |- _ => exists u, b
       end; eexists; (split; [reflexivity|]).
  all: try match goal with
           | H : negb (truthy ?u) = false |- _ =>
               apply negb_false_iff, truthy_Some in H as [? ?]
           end.
  all: split_and!; try done; try congruence; eauto.
Qed.

End MoreRuns.

(** * Equations for the stages *)

Lemma download_image_eq (E : externals) (image_url : string) (w : world) :
  _download_image E image_url w
  = (download_outcome E image_url, issue E (HttpGet image_url 20) w).
Proof.
  unfold _download_image, download_outcome, bind, http_get, ret, raise.
  destruct (requests_get E image_url 20) as [response|exc]; [|done].
  by destruct (raise_for_status response).
Qed.

Lemma call_gemini_warm_eq (E : externals) (image_bytes : bytes) (model_id : string)
    (w : world) :
  is_Some (_gemini_client w) ->
  _call_gemini E image_bytes model_id w
  = (answer_outcome E (generate_request model_id image_bytes),
     issue E (GenerateContent (generate_request model_id image_bytes)) w).
Proof.
  intros [client Hc].
  unfold _call_gemini, _get_gemini_client, answer_outcome, bind, models_generate_content,
    lift, raise.
  fold (generate_request model_id image_bytes). rewrite Hc.
  destruct (generate_content E _) as [response|exc]; [|done].
  destruct (candidates response) as [|candidate ?]; [done|].
  destruct (candidate_content candidate) as [content|]; [|done].
  by destruct (parts content).
Qed.

(** * Further properties of the handler *)

(** X1: each client is created once and then reused: after a call of its
    getter has returned, every later call returns the same client and
    changes nothing, whatever the environment has become; a getter that
    fails, on a missing variable or in the constructor, leaves the singleton
    unset. *)
Theorem clients_created_once (E E' : externals) (w w1 : world) :
  (forall client,
     _get_supabase_client E w = (Return client, w1) ->
     _get_supabase_client E' w1 = (Return client, w1))
  /\ (forall client,
        _get_gemini_client E w = (Return client, w1) ->
        _get_gemini_client E' w1 = (Return client, w1))
  /\ (forall exc,
        _get_supabase_client E w = (Raise exc, w1) ->
        w1 = w /\ _supabase_client w1 = None)
  /\ (forall exc,
        _get_gemini_client E w = (Raise exc, w1) ->
        w1 = w /\ _gemini_client w1 = None).
Proof.
  unfold _get_supabase_client, _get_gemini_client, os_environ, create_client, genai_Client,
    bind, ret, raise.
  split_and!.
  - intros client. destruct (_supabase_client w) eqn:Hc.
    + intros [= <- <-]. by rewrite Hc.
    + destruct (environ E !! "SUPABASE_URL") as [url|]; [|done].
      destruct (environ E !! "SUPABASE_SERVICE_ROLE_KEY") as [key|]; [|done].
      destruct (create_client_raises E url key); [done|].
      by intros [= <- <-].
  - intros client. destruct (_gemini_client w) eqn:Hc.
    + intros [= <- <-]. by rewrite Hc.
    + destruct (environ E !! "GEMINI_API_KEY") as [key|]; [|done].
      destruct (genai_Client_raises E key); [done|]. by intros [= <- <-].
  - intros exc. destruct (_supabase_client w) eqn:Hc; [done|].
    destruct (environ E !! "SUPABASE_URL") as [url|]; [|by intros [= <- <-]].
    destruct (environ E !! "SUPABASE_SERVICE_ROLE_KEY") as [key|]; [|by intros [= <- <-]].
    destruct (create_client_raises E url key); [by intros [= <- <-]|done].
  - intros exc. destruct (_gemini_client w) eqn:Hc; [done|].
    destruct (environ E !! "GEMINI_API_KEY") as [key|]; [|by intros [= <- <-]].
    destruct (genai_Client_raises E key); [by intros [= <- <-]|done].
Qed.

Lemma clients_created_once_witness :
  let E := Sample.services [] None in
  let E' :=
    {| environ := ∅; json_loads := json_loads E; isoformat := isoformat E;
       create_client_raises := create_client_raises E;
       genai_Client_raises := genai_Client_raises E;
       select_raises := select_raises E; zero_rows_text := zero_rows_text E;
       update_raises := update_raises E;
       requests_get := requests_get E; generate_content := generate_content E;
       elapsed := elapsed E |} in
  let w1 := (_get_supabase_client E Sample.COLD).2 in
  _get_supabase_client E' w1 = (Return ("https://store.example", "service-role-key"), w1).
Proof.
  apply (proj1 (clients_created_once (Sample.services [] None) _ Sample.COLD _)).
  reflexivity.
Defined.

(** X2: on a process that has no row-store client yet, a POST with a
    non-empty id fails on the first missing credential: the answer is 500 with
    the variable's name in quotes as message, and nothing has happened (no
    call, the singleton still unset). *)
Theorem missing_store_credentials (E : externals) (request : request) (w : world)
    (p : payload) (id key : string) :
  method request = "POST" ->
  get_json_silent request = Return (ObjectBody p) ->
  product_image_id p = Some id ->
  id <> "" ->
  _supabase_client w = None ->
  (environ E !! "SUPABASE_URL" = None /\ key = "SUPABASE_URL")
  \/ (is_Some (environ E !! "SUPABASE_URL")
      /\ environ E !! "SUPABASE_SERVICE_ROLE_KEY" = None
      /\ key = "SUPABASE_SERVICE_ROLE_KEY") ->
  analyze_product_image E request w
  = (Return {| resp_body := JsonDumps (JObj [("error", JStr ("'" +:+ key +:+ "'"))]);
               resp_status := 500;
               resp_headers := [("Content-Type", "application/json")] |}, w).
Proof.
  intros Hm Hj Hid Hne Hc Hkey.
  assert (_fetch_product_image_record E id w = (Raise (Exn KeyError ("'" +:+ key +:+ "'")), w))
    as Hf.
  { unfold _fetch_product_image_record, _get_supabase_client, os_environ, bind, ret, raise.
    rewrite Hc. destruct Hkey as [[Hu ->]|([u Hu] & Hk & ->)]; rewrite Hu; [done|].
    by rewrite Hk. }
  rewrite (post_object_run E request w p Hm Hj), Hid.
  unfold _analyze, bind. by rewrite (truthy_nonempty _ Hne), the_Some, Hf.
Qed.

Lemma missing_store_credentials_witness :
  let E :=
    {| environ := ∅; json_loads := Sample.loads; isoformat := Sample.iso;
       create_client_raises := fun _ _ => None; genai_Client_raises := fun _ => None;
       select_raises := fun _ => None; zero_rows_text := Sample.ZERO_ROWS;
       update_raises := fun _ _ _ => None;
       requests_get := fun _ _ => Raise (Exn OtherException "unreachable");
       generate_content := fun _ => Raise (Exn OtherException "unreachable");
       elapsed := fun _ => 0%N |} in
  analyze_product_image E (Sample.post (Some "r1") None) Sample.COLD
  = (Return {| resp_body := JsonDumps (JObj [("error", JStr "'SUPABASE_URL'")]);
               resp_status := 500;
               resp_headers := [("Content-Type", "application/json")] |}, Sample.COLD).
Proof.
  apply (missing_store_credentials _ (Sample.post (Some "r1") None) Sample.COLD
           {| product_image_id := Some "r1"; image_url := None |} "r1" "SUPABASE_URL");
    try reflexivity; [discriminate | by left].
Defined.

(** X3: the model's API key is looked up only after the download: a POST of
    an image URL alone on a process without model client and without
    [GEMINI_API_KEY] downloads the image and then fails with status 500 and
    the variable's name as message; the GET is the only call, and the model
    is not called. *)
Theorem missing_model_credentials (E : externals) (request : request) (w : world)
    (p : payload) (url : string) (image_bytes : bytes) :
  method request = "POST" ->
  get_json_silent request = Return (ObjectBody p) ->
  truthy (product_image_id p) = false ->
  image_url p = Some url ->
  url <> "" ->
  download_outcome E url = Return image_bytes ->
  _gemini_client w = None ->
  environ E !! "GEMINI_API_KEY" = None ->
  analyze_product_image E request w
  = (Return {| resp_body := JsonDumps (JObj [("error", JStr "'GEMINI_API_KEY'")]);
               resp_status := 500;
               resp_headers := [("Content-Type", "application/json")] |},
     {| product_images := product_images w;
        clock := clock w + Z.of_N (elapsed E (HttpGet url 20));
        _supabase_client := _supabase_client w;
        _gemini_client := None;
        trace := trace w ++ [HttpGet url 20] |}).
Proof.
  intros Hm Hj Hid Hurl Hne Hd Hc Hk.
  rewrite (post_object_run E request w p Hm Hj), Hurl.
  unfold _analyze, bind. rewrite Hid. simpl.
  rewrite (truthy_nonempty _ Hne), the_Some. simpl.
  rewrite download_image_eq, Hd.
  unfold _call_gemini, _get_gemini_client, os_environ, bind, raise, issue. simpl.
  by rewrite Hc, Hk.
Qed.

Lemma missing_model_credentials_witness :
  let E :=
    {| environ := ∅; json_loads := Sample.loads; isoformat := Sample.iso;
       create_client_raises := fun _ _ => None; genai_Client_raises := fun _ => None;
       select_raises := fun _ => None; zero_rows_text := Sample.ZERO_ROWS;
       update_raises := fun _ _ _ => None;
       requests_get :=
         fun _ _ => Return {| raise_for_status := None; content := Sample.JPEG |};
       generate_content := fun _ => Raise (Exn OtherException "unreachable");
       elapsed := fun _ => 0%N |} in
  (analyze_product_image E (Sample.post None (Some "https://x/img.jpg")) Sample.COLD).1
  = Return {| resp_body := JsonDumps (JObj [("error", JStr "'GEMINI_API_KEY'")]);
              resp_status := 500;
              resp_headers := [("Content-Type", "application/json")] |}.
Proof.
  cbv zeta.
  rewrite (missing_model_credentials _ (Sample.post None (Some "https://x/img.jpg"))
             Sample.COLD
             {| product_image_id := None; image_url := Some "https://x/img.jpg" |}
             "https://x/img.jpg" Sample.JPEG); try reflexivity.
  discriminate.
Defined.

(** X4: with a non-empty id the caller's [image_url] plays no part: two
    requests that differ only in [image_url] run alike, to the same answer and
    the same world; so the caller's URL is no fallback either when the row
    is missing or has no usable URL. *)
Theorem record_url_overrides (E : externals) (request1 request2 : request) (w : world)
    (p1 p2 : payload) (id : string) :
  method request1 = method request2 ->
  get_json_silent request1 = Return (ObjectBody p1) ->
  get_json_silent request2 = Return (ObjectBody p2) ->
  product_image_id p1 = Some id ->
  product_image_id p2 = Some id ->
  id <> "" ->
  analyze_product_image E request1 w = analyze_product_image E request2 w.
Proof.
  intros Hm Hj1 Hj2 Hid1 Hid2 Hne.
  unfold analyze_product_image. rewrite Hm, Hj1, Hj2. simpl. rewrite Hid1, Hid2.
  assert (_analyze E (Some id) (image_url p1) w = _analyze E (Some id) (image_url p2) w)
    as ->; [|done].
  unfold _analyze. by rewrite (truthy_nonempty _ Hne).
Qed.

Lemma record_url_overrides_witness :
  analyze_product_image (Sample.services [Some "{}"] None)
    (Sample.post (Some "r1") (Some "https://x/img.jpg")) Sample.COLD
  = analyze_product_image (Sample.services [Some "{}"] None)
      (Sample.post (Some "r1") None) Sample.COLD.
Proof.
  apply (record_url_overrides _ _ _ _
           {| product_image_id := Some "r1"; image_url := Some "https://x/img.jpg" |}
           {| product_image_id := Some "r1"; image_url := None |} "r1");
    try reflexivity.
  discriminate.
Defined.

(** X5: when the download fails, be it [requests.get] that raises or
    [raise_for_status] on the answer, a POST of an image URL alone ends
    there: the answer carries that exception's message, with status 400 if
    it derives from [ValueError] and 500 otherwise; the GET (with the
    20-second timeout) is the only call, and no model client is created. *)
Theorem download_failure (E : externals) (request : request) (w : world)
    (p : payload) (url : string) (exc : exn) :
  method request = "POST" ->
  get_json_silent request = Return (ObjectBody p) ->
  truthy (product_image_id p) = false ->
  image_url p = Some url ->
  url <> "" ->
  download_outcome E url = Raise exc ->
  analyze_product_image E request w
  = (Return {| resp_body := JsonDumps (JObj [("error", JStr (exn_str exc))]);
               resp_status := if is_ValueError exc then 400 else 500;
               resp_headers := [("Content-Type", "application/json")] |},
     {| product_images := product_images w;
        clock := clock w + Z.of_N (elapsed E (HttpGet url 20));
        _supabase_client := _supabase_client w;
        _gemini_client := _gemini_client w;
        trace := trace w ++ [HttpGet url 20] |}).
Proof.
  intros Hm Hj Hid Hurl Hne Hd.
  rewrite (post_object_run E request w p Hm Hj), Hurl.
  unfold _analyze, bind. rewrite Hid. simpl.
  rewrite (truthy_nonempty _ Hne), the_Some. simpl.
  by rewrite download_image_eq, Hd.
Qed.

Lemma download_failure_witness :
  let E :=
    {| environ := Sample.ENVIRON; json_loads := Sample.loads; isoformat := Sample.iso;
       create_client_raises := fun _ _ => None; genai_Client_raises := fun _ => None;
       select_raises := fun _ => None; zero_rows_text := Sample.ZERO_ROWS;
       update_raises := fun _ _ _ => None;
       requests_get :=
         fun _ _ =>
           Return {| raise_for_status := Some (Exn OtherException "404 Client Error");
                     content := [] |};
       generate_content := fun _ => Raise (Exn OtherException "unreachable");
       elapsed := fun _ => 0%N |} in
  (analyze_product_image E (Sample.post None (Some "https://x/img.jpg")) Sample.COLD).1
  = Return {| resp_body := JsonDumps (JObj [("error", JStr "404 Client Error")]);
              resp_status := 500;
              resp_headers := [("Content-Type", "application/json")] |}.
Proof.
  cbv zeta.
  rewrite (download_failure _ (Sample.post None (Some "https://x/img.jpg")) Sample.COLD
             {| product_image_id := None; image_url := Some "https://x/img.jpg" |}
             "https://x/img.jpg" (Exn OtherException "404 Client Error"));
    try reflexivity.
  discriminate.
Defined.

(** X6: an exception of the select is not wrapped: a POST with a non-empty
    id whose select raises is answered with that exception's own message,
    with status 400 if it derives from [ValueError] and 500 otherwise; the
    select is the only call and the table is as it was. *)
Theorem select_failure (E : externals) (request : request) (w : world)
    (p : payload) (id : string) (exc : exn) :
  method request = "POST" ->
  get_json_silent request = Return (ObjectBody p) ->
  product_image_id p = Some id ->
  id <> "" ->
  store_client_available E w ->
  select_raises E id = Some exc ->
  let run := analyze_product_image E request w in
  run.1 = Return {| resp_body := JsonDumps (JObj [("error", JStr (exn_str exc))]);
                    resp_status := if is_ValueError exc then 400 else 500;
                    resp_headers := [("Content-Type", "application/json")] |}
  /\ trace run.2 = trace w ++ [StoreSelect id]
  /\ product_images run.2 = product_images w.
Proof.
  intros Hm Hj Hid Hne Hav Hsel.
  destruct (fetch_product_image_record_eq E id w Hav) as (w1 & Hf & Ht & Hs & _).
  unfold lookup_outcome in Hf. rewrite Hsel in Hf. simpl.
  rewrite (post_object_run E request w p Hm Hj), Hid.
  unfold _analyze, bind. by rewrite (truthy_nonempty _ Hne), the_Some, Hf.
Qed.

Lemma select_failure_witness :
  let E :=
    {| environ := Sample.ENVIRON; json_loads := Sample.loads; isoformat := Sample.iso;
       create_client_raises := fun _ _ => None; genai_Client_raises := fun _ => None;
       select_raises := fun _ => Some (Exn APIError "connection refused");
       zero_rows_text := Sample.ZERO_ROWS;
       update_raises := fun _ _ _ => None;
       requests_get := fun _ _ => Raise (Exn OtherException "unreachable");
       generate_content := fun _ => Raise (Exn OtherException "unreachable");
       elapsed := fun _ => 0%N |} in
  (analyze_product_image E (Sample.post (Some "r1") None) Sample.COLD).1
  = Return {| resp_body := JsonDumps (JObj [("error", JStr "connection refused")]);
              resp_status := 500;
              resp_headers := [("Content-Type", "application/json")] |}.
Proof.
  cbv zeta.
  apply (select_failure _ (Sample.post (Some "r1") None) Sample.COLD
           {| product_image_id := Some "r1"; image_url := None |} "r1"
           (Exn APIError "connection refused")); try reflexivity.
  - discriminate.
  - right. by exists "https://store.example", "service-role-key".
Defined.

(** X7: a row that yields no URL ends the request after the select, with
    status 400, whatever [image_url] the caller sent along: with the no-image
    message when [_select_image_url] raises, and with the missing-input
    message when it returns the empty string (an [image_urls] that starts
    with an empty element, whatever follows it). *)
Theorem unresolvable_record (E : externals) (request : request) (w : world)
    (p : payload) (id : string) (record : product_image_record) :
  method request = "POST" ->
  get_json_silent request = Return (ObjectBody p) ->
  product_image_id p = Some id ->
  id <> "" ->
  store_client_available E w ->
  select_raises E id = None ->
  product_images w !! id = Some record ->
  truthy (thumbnail_url record) = false ->
  truthy (primary_image_url record) = false ->
  truthy (head (default [] (image_urls record))) = false ->
  let run := analyze_product_image E request w in
  run.1
  = Return {| resp_body :=
                JsonDumps
                  (JObj [("error",
                          JStr (match default [] (image_urls record) with
                                | [] => "No usable image URL found in product_images record"
                                | _ :: _ => "No image URL provided or found in Supabase record"
                                end))]);
              resp_status := 400;
              resp_headers := [("Content-Type", "application/json")] |}
  /\ trace run.2 = trace w ++ [StoreSelect id]
  /\ product_images run.2 = product_images w.
Proof.
  intros Hm Hj Hid Hne Hav Hsel Hrow Ht Hp Hfirst.
  destruct (fetch_product_image_record_eq E id w Hav) as (w1 & Hf & Htr & Hs & _).
  unfold lookup_outcome in Hf. rewrite Hsel, Hrow in Hf. simpl.
  rewrite (post_object_run E request w p Hm Hj), Hid.
  unfold _analyze, bind. rewrite (truthy_nonempty _ Hne), the_Some, Hf.
  unfold lift, _select_image_url. rewrite Ht, Hp.
  by destruct (default [] (image_urls record)) as [|[|c first] rest].
Qed.

Lemma unresolvable_record_witness :
  let table : gmap string product_image_record :=
    {[ "r2" := {| thumbnail_url := None; primary_image_url := Some "";
                  image_urls := Some [""; "https://x/2.jpg"];
                  ai_metadata := None; updated_at := None |} ]} in
  let w :=
    {| product_images := table; clock := Sample.EPOCH; _supabase_client := None;
       _gemini_client := None; trace := [] |} in
  (analyze_product_image (Sample.services [Some "{}"] None)
     (Sample.post (Some "r2") (Some "https://x/img.jpg")) w).1
  = Return {| resp_body :=
                JsonDumps (JObj [("error",
                                  JStr "No image URL provided or found in Supabase record")]);
              resp_status := 400;
              resp_headers := [("Content-Type", "application/json")] |}.
Proof.
  cbv zeta.
  apply (unresolvable_record (Sample.services [Some "{}"] None)
           (Sample.post (Some "r2") (Some "https://x/img.jpg")) _
           {| product_image_id := Some "r2"; image_url := Some "https://x/img.jpg" |} "r2"
           {| thumbnail_url := None; primary_image_url := Some "";
              image_urls := Some [""; "https://x/2.jpg"];
              ai_metadata := None; updated_at := None |}); try reflexivity.
  - discriminate.
  - right. by exists "https://store.example", "service-role-key".
Defined.


(** X18: a constructor of the model client that raises ends the request as
    any other failure does: a POST of an image URL alone, on a process
    without model client whose [GEMINI_API_KEY] the constructor rejects,
    downloads the image and is then answered with the constructor's
    message, with status 400 if the exception derives from [ValueError] and
    500 otherwise; the GET is the only call, and the singleton stays
    unset. *)
Theorem model_client_failure (E : externals) (request : request) (w : world)
    (p : payload) (url api_key : string) (image_bytes : bytes) (exc : exn) :
  method request = "POST" ->
  get_json_silent request = Return (ObjectBody p) ->
  truthy (product_image_id p) = false ->
  image_url p = Some url ->
  url <> "" ->
  download_outcome E url = Return image_bytes ->
  _gemini_client w = None ->
  environ E !! "GEMINI_API_KEY" = Some api_key ->
  genai_Client_raises E api_key = Some exc ->
  analyze_product_image E request w
  = (Return {| resp_body := JsonDumps (JObj [("error", JStr (exn_str exc))]);
               resp_status := if is_ValueError exc then 400 else 500;
               resp_headers := [("Content-Type", "application/json")] |},
     {| product_images := product_images w;
        clock := clock w + Z.of_N (elapsed E (HttpGet url 20));
        _supabase_client := _supabase_client w;
        _gemini_client := None;
        trace := trace w ++ [HttpGet url 20] |}).
Proof.
  intros Hm Hj Hid Hurl Hne Hd Hc Hk Hraise.
  rewrite (post_object_run E request w p Hm Hj), Hurl.
  unfold _analyze, bind. rewrite Hid. simpl.
  rewrite (truthy_nonempty _ Hne), the_Some. simpl.
  rewrite download_image_eq, Hd.
  unfold _call_gemini, _get_gemini_client, os_environ, genai_Client, bind, raise, ret, issue.
  simpl. by rewrite Hc, Hk, Hraise.
Qed.

Lemma model_client_failure_witness :
  let E :=
    {| environ := {[ "GEMINI_API_KEY" := "" ]};
       json_loads := Sample.loads; isoformat := Sample.iso;
       create_client_raises := fun _ _ => None;
       genai_Client_raises :=
         fun api_key =>
           if String.eqb api_key "" then Some (Exn ValueError "Missing key inputs argument!")
           else None;
       select_raises := fun _ => None; zero_rows_text := Sample.ZERO_ROWS;
       update_raises := fun _ _ _ => None;
       requests_get :=
         fun _ _ => Return {| raise_for_status := None; content := Sample.JPEG |};
       generate_content := fun _ => Raise (Exn OtherException "unreachable");
       elapsed := fun _ => 0%N |} in
  (analyze_product_image E (Sample.post None (Some "https://x/img.jpg")) Sample.COLD).1
  = Return {| resp_body := JsonDumps (JObj [("error", JStr "Missing key inputs argument!")]);
              resp_status := 400;
              resp_headers := [("Content-Type", "application/json")] |}.
Proof.
  cbv zeta.
  rewrite (model_client_failure _ (Sample.post None (Some "https://x/img.jpg"))
             Sample.COLD
             {| product_image_id := None; image_url := Some "https://x/img.jpg" |}
             "https://x/img.jpg" "" Sample.JPEG
             (Exn ValueError "Missing key inputs argument!")); try reflexivity.
  discriminate.
Defined.

(** X19: so does a constructor of the row-store client that raises: a POST
    with a non-empty id, on a process without row-store client whose
    credentials [create_client] rejects, is answered with the constructor's
    message, with status 400 if the exception derives from [ValueError] and
    500 otherwise, and nothing has happened: no call, the singleton still
    unset. *)
Theorem store_client_failure (E : externals) (request : request) (w : world)
    (p : payload) (id supabase_url service_role_key : string) (exc : exn) :
  method request = "POST" ->
  get_json_silent request = Return (ObjectBody p) ->
  product_image_id p = Some id ->
  id <> "" ->
  _supabase_client w = None ->
  environ E !! "SUPABASE_URL" = Some supabase_url ->
  environ E !! "SUPABASE_SERVICE_ROLE_KEY" = Some service_role_key ->
  create_client_raises E supabase_url service_role_key = Some exc ->
  analyze_product_image E request w
  = (Return {| resp_body := JsonDumps (JObj [("error", JStr (exn_str exc))]);
               resp_status := if is_ValueError exc then 400 else 500;
               resp_headers := [("Content-Type", "application/json")] |}, w).
Proof.
  intros Hm Hj Hid Hne Hc Hu Hk Hraise.
  assert (_fetch_product_image_record E id w = (Raise exc, w)) as Hf.
  { unfold _fetch_product_image_record, _get_supabase_client, os_environ, create_client,
      bind, ret, raise.
    by rewrite Hc, Hu, Hk, Hraise. }
  rewrite (post_object_run E request w p Hm Hj), Hid.
  unfold _analyze, bind. by rewrite (truthy_nonempty _ Hne), the_Some, Hf.
Qed.

Lemma store_client_failure_witness :
  let E :=
    {| environ := {[ "SUPABASE_URL" := ""; "SUPABASE_SERVICE_ROLE_KEY" := "service-role-key" ]};
       json_loads := Sample.loads; isoformat := Sample.iso;
       create_client_raises :=
         fun supabase_url _ =>
           if String.eqb supabase_url ""
           then Some (Exn OtherException "supabase_url is required") else None;
       genai_Client_raises := fun _ => None;
       select_raises := fun _ => None; zero_rows_text := Sample.ZERO_ROWS;
       update_raises := fun _ _ _ => None;
       requests_get := fun _ _ => Raise (Exn OtherException "unreachable");
       generate_content := fun _ => Raise (Exn OtherException "unreachable");
       elapsed := fun _ => 0%N |} in
  analyze_product_image E (Sample.post (Some "r1") None) Sample.COLD
  = (Return {| resp_body := JsonDumps (JObj [("error", JStr "supabase_url is required")]);
               resp_status := 500;
               resp_headers := [("Content-Type", "application/json")] |}, Sample.COLD).
Proof.
  apply (store_client_failure _ (Sample.post (Some "r1") None) Sample.COLD
           {| product_image_id := Some "r1"; image_url := None |} "r1"
           "" "service-role-key" (Exn OtherException "supabase_url is required"));
    try reflexivity.
  discriminate.
Defined.
(** * Where the exceptions of a run come from *)

Section Failures.

Variable E : externals.

Lemma get_supabase_client_failure (w w' : world) (exc : exn) :
  _get_supabase_client E w = (Raise exc, w') -> failure E exc.
Proof.
  unfold _get_supabase_client, os_environ, create_client, bind, ret, raise.
  destruct (_supabase_client w); [done|].
  destruct (environ E !! "SUPABASE_URL") as [url|] eqn:Hu;
    [|intros [= <- <-]; by apply MissingVariable].
  destruct (environ E !! "SUPABASE_SERVICE_ROLE_KEY") as [key|] eqn:Hk;
    [|intros [= <- <-]; by apply MissingVariable].
  destruct (create_client_raises E url key) as [exc'|] eqn:Hcr; [|done].
  intros [= <- <-]. apply ServiceRaised. left. eauto.
Qed.

Lemma get_gemini_client_failure (w w' : world) (exc : exn) :
  _get_gemini_client E w = (Raise exc, w') -> failure E exc.
Proof.
  unfold _get_gemini_client, os_environ, genai_Client, bind, ret, raise.
  destruct (_gemini_client w); [done|].
  destruct (environ E !! "GEMINI_API_KEY") as [key|] eqn:Hk;
    [|intros [= <- <-]; by apply MissingVariable].
  destruct (genai_Client_raises E key) as [exc'|] eqn:Hcr; [|done].
  intros [= <- <-]. apply ServiceRaised. right. left. eauto.
Qed.

Lemma fetch_failure (image_id : string) (w w' : world) (exc : exn) :
  _fetch_product_image_record E image_id w = (Raise exc, w') -> failure E exc.
Proof.
  unfold _fetch_product_image_record. intros H.
  apply bind_inv in H as [(client & w1 & _ & H)|(exc' & Hc & [= <-])];
    [|by eapply get_supabase_client_failure].
  unfold bind, select_eq_single_execute, ret, raise in H.
  destruct (select_raises E image_id) as [exc'|] eqn:Hsel.
  - simplify_eq. apply ServiceRaised. do 2 right. left. eauto.
  - destruct (product_images w1 !! image_id); simplify_eq. apply ZeroRows.
Qed.

Lemma select_image_url_failure (record : product_image_record) (exc : exn) :
  _select_image_url record = Raise exc -> failure E exc.
Proof.
  unfold _select_image_url.
  destruct (truthy (thumbnail_url record)); [done|].
  destruct (truthy (primary_image_url record)); [done|].
  destruct (default [] (image_urls record)); [|done].
  intros [= <-]. apply NoUsableImage.
Qed.

Lemma download_failure_origin (image_url : string) (w w' : world) (exc : exn) :
  _download_image E image_url w = (Raise exc, w') -> failure E exc.
Proof.
  rewrite download_image_eq. intros [= Hd _].
  apply ServiceRaised. do 4 right. left. eauto.
Qed.

Lemma for_part_in_failure (parts : list part) (exc : exn) :
  for_part_in E parts = Raise exc -> failure E exc.
Proof.
  intros [->|[(raw & cause & -> & Hraw & Hcause)|(raw & Hraw & Hexc)]]%for_part_in_Raise.
  - apply NoTextContent.
  - by apply (InvalidJSON E raw cause).
  - apply ServiceRaised. do 6 right. eauto.
Qed.

Lemma answer_failure (request : generate_content_request) (exc : exn) :
  answer_outcome E request = Raise exc -> failure E exc.
Proof.
  unfold answer_outcome.
  destruct (generate_content E request) as [response|exc'] eqn:Hg.
  - destruct (candidates response) as [|candidate ?]; [intros [= <-]; apply NoCandidates|].
    destruct (candidate_content candidate) as [content|]; [|intros [= <-]; apply NoContent].
    destruct (parts content) as [ps|]; [|intros [= <-]; apply NoParts].
    apply for_part_in_failure.
  - intros [= <-]. apply ServiceRaised. do 5 right. left. eauto.
Qed.

Lemma call_gemini_failure (image_bytes : bytes) (model_id : string) (w w' : world)
    (exc : exn) :
  _call_gemini E image_bytes model_id w = (Raise exc, w') -> failure E exc.
Proof.
  intros H. pose proof H as H'.
  apply call_gemini_run in H' as (_ & _ & _ & [[-> _]|(_ & _ & Ho)]).
  - unfold _call_gemini in H.
    apply bind_inv in H as [(client & w1 & Hc & H)|(exc' & Hc & [= <-])];
      [|by eapply get_gemini_client_failure].
    apply get_gemini_client_run in Hc as (_ & _ & Ht & _).
    unfold bind, models_generate_content in H. exfalso.
    assert (length (trace w) = length (trace w1 ++ [GenerateContent
              {| model := model_id; prompt_text := PROMPT; image_data := image_bytes;
                 mime_type := "image/jpeg"; response_mime_type := "application/json";
                 temperature := 35 # 100; top_p := 8 # 10; top_k := 32 |}])) as Hlen.
    { destruct (generate_content E _) as [response|?]; [|by simplify_eq/=].
      destruct (candidates response) as [|candidate ?]; [by unfold raise in H; simplify_eq/=|].
      destruct (candidate_content candidate) as [content|];
        [|by unfold raise in H; simplify_eq/=].
      destruct (parts content); unfold lift, raise in H; by simplify_eq/=. }
    rewrite Ht, length_app in Hlen. simpl in Hlen. lia.
  - by apply (answer_failure (generate_request model_id image_bytes)).
Qed.

Lemma update_failure (image_id : string) (metadata : json) (w w' : world) (exc : exn) :
  _update_ai_metadata E image_id metadata w = (Raise exc, w') -> failure E exc.
Proof.
  unfold _update_ai_metadata. intros H.
  apply bind_inv in H as [(client & w1 & _ & H)|(exc' & Hc & [= <-])];
    [|by eapply get_supabase_client_failure].
  unfold bind, datetime_now_utc, try_except_APIError, update_eq_execute, raise in H.
  simpl in H.
  destruct (update_raises E image_id metadata _) as [exc'|] eqn:Hup; [|done].
  destruct (is_APIError exc') eqn:Hapi; simplify_eq.
  - by eapply PersistenceFailed.
  - apply ServiceRaised. do 3 right. left. eauto.
Qed.

Ltac failure_step :=
  match goal with
  | H : bind _ _ _ = (_, _) |- _ =>
      apply bind_inv in H as [(? & ? & ? & H)|(? & H & ?)]; simplify_eq
  | H : ret _ _ = (_, _) |- _ => unfold ret in H; simplify_eq
  | H : raise _ _ = (_, _) |- _ => unfold raise in H; simplify_eq
  | H : lift _ _ = (_, _) |- _ => unfold lift in H; simplify_eq
  | H : _fetch_product_image_record _ _ _ = (Raise _, _) |- _ =>
      by apply fetch_failure in H
  | H : _select_image_url _ = Raise _ |- _ => by apply select_image_url_failure in H
  | H : _download_image _ _ _ = (Raise _, _) |- _ => by apply download_failure_origin in H
  | H : _call_gemini _ _ _ _ = (Raise _, _) |- _ => by apply call_gemini_failure in H
  | H : _update_ai_metadata _ _ _ _ = (Raise _, _) |- _ => by apply update_failure in H
  | H : (if ?b then _ else _) _ = (_, _) |- _ => destruct b; simpl in H
  end.

Lemma analyze_failure (image_id image_url : option string) (w w' : world) (exc : exn) :
  _analyze E image_id image_url w = (Raise exc, w') -> failure E exc.
Proof.
  unfold _analyze. intros H. repeat failure_step.
  all: apply MissingImageInput.
Qed.

End Failures.

(** X8: the failures are a closed list.  A request answered with 400 was
    either unreadable ("Invalid JSON body") or ended with a [failure] that
    derives from [ValueError], and one answered with 500 ended with a
    [failure] that does not; in both cases the message is the exception's
    text.  A [failure] is a missing environment variable, the [APIError] of
    a select that finds no row, one of the two input errors, one of the five
    errors on the model's answer (no candidates, no content, no parts, no
    text, text that [json.loads] rejects with a [JSONDecodeError]), the
    wrapped error of the write, or an exception raised by a service or a
    library: by a client constructor, the select, the update, the download,
    the model call, or by [json.loads] when it is no [JSONDecodeError]. *)
Theorem failures_are_closed (E : externals) (request : request) (w : world)
    (response : response) :
  (analyze_product_image E request w).1 = Return response ->
  (resp_status response = 400 ->
     response = {| resp_body := JsonDumps (JObj [("error", JStr "Invalid JSON body")]);
                   resp_status := 400;
                   resp_headers := [("Content-Type", "application/json")] |}
     \/ exists exc,
          failure E exc /\ is_ValueError exc = true
          /\ response = {| resp_body := JsonDumps (JObj [("error", JStr (exn_str exc))]);
                           resp_status := 400;
                           resp_headers := [("Content-Type", "application/json")] |})
  /\ (resp_status response = 500 ->
      exists exc,
        failure E exc /\ is_ValueError exc = false
        /\ response = {| resp_body := JsonDumps (JObj [("error", JStr (exn_str exc))]);
                         resp_status := 500;
                         resp_headers := [("Content-Type", "application/json")] |}).
Proof.
  destruct (handler_cases E request w)
    as [(_ & _ & [Hm|[[Hm [exc Hj]]|[Hm [type_name Hj]]]])|(Hm & o & w' & Hrun & ->)].
  - rewrite not_post_run by done. intros [= <-]. by split.
  - rewrite (unreadable_run E request w exc) by done. intros [= <-]. split; [by left|done].
  - by rewrite (not_an_object_run E request w type_name).
  - intros [= <-]. destruct o as [result|exc]; [by split|].
    apply analyze_failure in Hrun. rewrite response_of_Raise.
    destruct (is_ValueError exc) eqn:Hv; simpl; (split; [|]); try done; eauto.
Qed.

Lemma failures_are_closed_witness :
  exists exc,
    failure (Sample.services [] None) exc /\ is_ValueError exc = false
    /\ (analyze_product_image (Sample.services [] None) (Sample.post (Some "abc") None)
          Sample.COLD).1
       = Return {| resp_body := JsonDumps (JObj [("error", JStr (exn_str exc))]);
                   resp_status := 500;
                   resp_headers := [("Content-Type", "application/json")] |}.
Proof.
  destruct (proj2 (failures_are_closed (Sample.services [] None)
                     (Sample.post (Some "abc") None) Sample.COLD
                     {| resp_body := JsonDumps (JObj [("error", JStr Sample.ZERO_ROWS)]);
                        resp_status := 500;
                        resp_headers := [("Content-Type", "application/json")] |}
                     eq_refl) eq_refl)
    as (exc & Hfailure & Hclass & Hresponse).
  exists exc. split_and!; [done|done|]. by rewrite <- Hresponse.
Defined.

(** * The model call within a request *)

(** X9: what is sent to the model is the downloaded image, unchanged: every
    model call of a request comes right after the GET of the source URL,
    which returned the bytes the call carries, declared as [image/jpeg],
    with the fixed prompt and sampling parameters and with the model id of
    [GEMINI_MODEL_ID], or "gemini-2.5-flash" when that is unset. *)
Theorem model_call_carries_download (E : externals) (request : request) (w : world)
    (calls : list call) (model_request : generate_content_request) :
  trace (analyze_product_image E request w).2 = trace w ++ calls ->
  In (GenerateContent model_request) calls ->
  exists source image_bytes before after,
    calls = before ++ [HttpGet source 20; GenerateContent model_request] ++ after
    /\ download_outcome E source = Return image_bytes
    /\ model_request =
         {| model := default "gemini-2.5-flash" (environ E !! "GEMINI_MODEL_ID");
            prompt_text := PROMPT;
            image_data := image_bytes;
            mime_type := "image/jpeg";
            response_mime_type := "application/json";
            temperature := 35 # 100;
            top_p := 8 # 10;
            top_k := 32 |}.
Proof.
  intros Ht Hin.
  destruct (handler_call _ _ _ _ _ Ht Hin) as (o & w' & Hrun & Hresp).
  rewrite Hresp in Ht. simpl in Ht.
  destruct (analyze_generate _ _ _ _ _ _ _ _ Hrun Ht Hin)
    as (source & image_bytes & after & -> & _ & _ & Hd & -> & _).
  by exists source, image_bytes,
    (if truthy (product_image_id (supplied_payload request))
     then [StoreSelect (the (product_image_id (supplied_payload request)))] else []),
    after.
Qed.

Lemma model_call_carries_download_witness :
  exists source image_bytes before after,
    [HttpGet "https://x/img.jpg" 20;
     GenerateContent (generate_request "gemini-2.5-flash" Sample.JPEG)]
    = before ++ [HttpGet source 20;
                 GenerateContent (generate_request "gemini-2.5-flash" Sample.JPEG)]
             ++ after
    /\ download_outcome (Sample.services [Some "{}"] None) source = Return image_bytes
    /\ image_bytes = Sample.JPEG.
Proof.
  destruct (model_call_carries_download (Sample.services [Some "{}"] None)
              (Sample.post None (Some "https://x/img.jpg")) Sample.COLD
              [HttpGet "https://x/img.jpg" 20;
               GenerateContent (generate_request "gemini-2.5-flash" Sample.JPEG)]
              (generate_request "gemini-2.5-flash" Sample.JPEG))
    as (source & image_bytes & before & after & Hcalls & Hd & Hreq);
    [reflexivity | simpl; auto |].
  exists source, image_bytes, before, after. split_and!; [done|done|].
  by injection Hreq.
Defined.

(** What a request ends with when nothing can be made of the answer to its
    model call. *)
Lemma answer_failure_run (E : externals) (request : request) (w : world)
    (calls : list call) (model_request : generate_content_request) (exc : exn) :
  trace (analyze_product_image E request w).2 = trace w ++ calls ->
  In (GenerateContent model_request) calls ->
  answer_outcome E model_request = Raise exc ->
  (analyze_product_image E request w).1
  = Return {| resp_body := JsonDumps (JObj [("error", JStr (exn_str exc))]);
              resp_status := if is_ValueError exc then 400 else 500;
              resp_headers := [("Content-Type", "application/json")] |}
  /\ (exists before, calls = before ++ [GenerateContent model_request])
  /\ product_images (analyze_product_image E request w).2 = product_images w.
Proof.
  intros Ht Hin Hexc.
  destruct (handler_call _ _ _ _ _ Ht Hin) as (o & w' & Hrun & Hresp).
  rewrite Hresp in *. simpl in *.
  destruct (analyze_generate _ _ _ _ _ _ _ _ Hrun Ht Hin)
    as (source & image_bytes & after & -> & _ & _ & _ & _ & Ho).
  rewrite Hexc in Ho. destruct Ho as (-> & -> & Hs). split_and!; [done| |done].
  exists ((if truthy (product_image_id (supplied_payload request))
           then [StoreSelect (the (product_image_id (supplied_payload request)))]
           else []) ++ [HttpGet source 20]).
  by rewrite <- app_assoc.
Qed.

(** X10: when nothing can be made of the answer to the model call (the call
    raised, there is no candidate, the first candidate has no content, no
    parts or no text, or [json.loads] raises on its first text), the request
    ends there, also when it came with an id: the model call is its last
    call, nothing is written to the table, and the answer carries that
    exception's message. *)
Theorem unusable_answer_ends_request (E : externals) (request : request) (w : world)
    (calls : list call) (model_request : generate_content_request) (exc : exn) :
  trace (analyze_product_image E request w).2 = trace w ++ calls ->
  In (GenerateContent model_request) calls ->
  answer_outcome E model_request = Raise exc ->
  (analyze_product_image E request w).1
  = Return {| resp_body := JsonDumps (JObj [("error", JStr (exn_str exc))]);
              resp_status := if is_ValueError exc then 400 else 500;
              resp_headers := [("Content-Type", "application/json")] |}
  /\ (exists before, calls = before ++ [GenerateContent model_request])
  /\ Forall (fun c => forall id metadata timestamp,
                        c <> StoreUpdate id metadata timestamp) calls
  /\ product_images (analyze_product_image E request w).2 = product_images w.
Proof.
  intros Ht Hin Hexc.
  destruct (answer_failure_run _ _ _ _ _ _ Ht Hin Hexc) as (Hresp & [before ->] & Hs).
  split_and!; eauto.
  destruct (handler_call _ _ _ _ _ Ht Hin) as (o & w' & Hrun & Hrun').
  rewrite Hrun' in Ht. simpl in Ht.
  apply Forall_forall. intros c Hc id metadata timestamp ->.
  apply list_elem_of_In in Hc.
  destruct (analyze_update _ _ _ _ _ _ _ _ _ _ Hrun Ht Hc)
    as (record & url & sent & now & _ & _ & _ & _ & Hcalls & _).
  assert (last (before ++ [GenerateContent model_request])
          = last [StoreSelect id; HttpGet url 20; GenerateContent sent;
                  StoreUpdate id metadata timestamp]) as Hlast by by rewrite Hcalls.
  by rewrite last_snoc in Hlast.
Qed.

Lemma unusable_answer_ends_request_witness :
  (analyze_product_image (Sample.services [] None) (Sample.post (Some "r1") None)
     Sample.COLD).1
  = Return {| resp_body :=
                JsonDumps (JObj [("error",
                                  JStr "Gemini candidate had no textual JSON content")]);
              resp_status := 500;
              resp_headers := [("Content-Type", "application/json")] |}.
Proof.
  apply (unusable_answer_ends_request (Sample.services [] None)
           (Sample.post (Some "r1") None) Sample.COLD
           [StoreSelect "r1"; HttpGet "https://x/thumb.jpg" 20;
            GenerateContent (generate_request "gemini-2.5-flash" Sample.JPEG)]
           (generate_request "gemini-2.5-flash" Sample.JPEG)
           (Exn RuntimeError "Gemini candidate had no textual JSON content"));
    [reflexivity | simpl; auto | reflexivity].
Defined.

(** X11: an answer of the model without candidates, and one whose first
    candidate has no part with non-empty text, are server errors: the request
    is answered with status 500 and the fixed message of the case, whatever
    the other candidates hold.  So is an answer whose first candidate comes
    without content, or with content without parts: the message then is the
    one of the [AttributeError] or [TypeError] that reading them raises. *)
Theorem empty_answer_is_server_error (E : externals) (request : request) (w : world)
    (calls : list call) (model_request : generate_content_request)
    (answer : generate_content_response) :
  trace (analyze_product_image E request w).2 = trace w ++ calls ->
  In (GenerateContent model_request) calls ->
  generate_content E model_request = Return answer ->
  (candidates answer = [] ->
   (analyze_product_image E request w).1
   = Return {| resp_body := JsonDumps (JObj [("error", JStr "Gemini returned no candidates")]);
               resp_status := 500;
               resp_headers := [("Content-Type", "application/json")] |})
  /\ (forall candidate others content segments,
        candidates answer = candidate :: others ->
        candidate_content candidate = Some content ->
        parts content = Some segments ->
        Forall (fun part => truthy (text part) = false) segments ->
        (analyze_product_image E request w).1
        = Return {| resp_body :=
                      JsonDumps (JObj [("error",
                                        JStr "Gemini candidate had no textual JSON content")]);
                    resp_status := 500;
                    resp_headers := [("Content-Type", "application/json")] |})
  /\ (forall candidate others,
        candidates answer = candidate :: others ->
        candidate_content candidate = None ->
        (analyze_product_image E request w).1
        = Return {| resp_body :=
                      JsonDumps (JObj [("error",
                                        JStr "'NoneType' object has no attribute 'parts'")]);
                    resp_status := 500;
                    resp_headers := [("Content-Type", "application/json")] |})
  /\ (forall candidate others content,
        candidates answer = candidate :: others ->
        candidate_content candidate = Some content ->
        parts content = None ->
        (analyze_product_image E request w).1
        = Return {| resp_body :=
                      JsonDumps (JObj [("error", JStr "'NoneType' object is not iterable")]);
                    resp_status := 500;
                    resp_headers := [("Content-Type", "application/json")] |}).
Proof.
  intros Ht Hin Hanswer. split_and!.
  - intros Hnone.
    by apply (answer_failure_run _ _ _ _ _
                (Exn RuntimeError "Gemini returned no candidates") Ht Hin);
      unfold answer_outcome; rewrite Hanswer, Hnone.
  - intros candidate others content segments Hcs Hcontent Hparts Htext.
    by apply (answer_failure_run _ _ _ _ _
                (Exn RuntimeError "Gemini candidate had no textual JSON content") Ht Hin);
      unfold answer_outcome; rewrite Hanswer, Hcs, Hcontent, Hparts, for_part_in_no_text.
  - intros candidate others Hcs Hcontent.
    by apply (answer_failure_run _ _ _ _ _
                (Exn AttributeError "'NoneType' object has no attribute 'parts'") Ht Hin);
      unfold answer_outcome; rewrite Hanswer, Hcs, Hcontent.
  - intros candidate others content Hcs Hcontent Hparts.
    by apply (answer_failure_run _ _ _ _ _
                (Exn TypeError "'NoneType' object is not iterable") Ht Hin);
      unfold answer_outcome; rewrite Hanswer, Hcs, Hcontent, Hparts.
Qed.

Lemma empty_answer_is_server_error_witness :
  (analyze_product_image (Sample.services [None; Some ""] None)
     (Sample.post None (Some "https://x/img.jpg")) Sample.COLD).1
  = Return {| resp_body :=
                JsonDumps (JObj [("error",
                                  JStr "Gemini candidate had no textual JSON content")]);
              resp_status := 500;
              resp_headers := [("Content-Type", "application/json")] |}.
Proof.
  eapply (proj1 (proj2 (empty_answer_is_server_error (Sample.services [None; Some ""] None)
            (Sample.post None (Some "https://x/img.jpg")) Sample.COLD
            [HttpGet "https://x/img.jpg" 20;
             GenerateContent (generate_request "gemini-2.5-flash" Sample.JPEG)]
            (generate_request "gemini-2.5-flash" Sample.JPEG) _ eq_refl
            (or_intror (or_introl eq_refl)) eq_refl)));
    [reflexivity | reflexivity | reflexivity |].
  repeat constructor.
Defined.

(** * Requests that succeed, and what a request leaves behind *)

(** A run that returns has called the model. *)
Lemma analyze_Return_generates (E : externals) (image_id image_url : option string)
    (w w' : world) (result : json) :
  _analyze E image_id image_url w = (Return result, w') ->
  exists calls model_request,
    trace w' = trace w ++ calls /\ In (GenerateContent model_request) calls.
Proof.
  unfold _analyze. intros H. repeat run_step.
  all: trace_norm; eexists _, _; (split; [done|]); simpl; eauto 10.
Qed.

(** X12: a request answered with 200 has made exactly one download and one
    model call, between the select and the update when it came with an id
    and with no store call otherwise; the body is the object of
    [source_image_url], the URL that was downloaded, and [analysis], what
    the scan made of the model's answer to the downloaded bytes (which the
    update, if any, carries too). *)
Theorem success_calls (E : externals) (request : request) (w : world)
    (response : response) :
  (analyze_product_image E request w).1 = Return response ->
  resp_status response = 200 ->
  let image_id := product_image_id (supplied_payload request) in
  exists source image_bytes analysis timestamp,
    download_outcome E source = Return image_bytes
    /\ answer_outcome E (generate_request (configured_model E) image_bytes)
       = Return analysis
    /\ response
       = {| resp_body :=
              JsonDumps (JObj [("source_image_url", JStr source); ("analysis", analysis)]);
            resp_status := 200;
            resp_headers := [("Content-Type", "application/json")] |}
    /\ trace (analyze_product_image E request w).2
       = trace w
         ++ (if truthy image_id then [StoreSelect (the image_id)] else [])
         ++ [HttpGet source 20;
             GenerateContent (generate_request (configured_model E) image_bytes)]
         ++ (if truthy image_id
             then [StoreUpdate (the image_id) analysis timestamp] else []).
Proof.
  intros Hresponse H200. simpl.
  destruct (handler_cases E request w) as [(_ & Hs & _)|(_ & o & w' & Hrun & Hresp)];
    [by destruct (Hs response)|].
  rewrite Hresp in *. simpl in *. injection Hresponse as <-.
  destruct (response_of_200 _ H200) as [result ->].
  destruct (analyze_Return_generates _ _ _ _ _ _ Hrun) as (calls & sent & Ht & Hin).
  destruct (analyze_generate _ _ _ _ _ _ _ _ Hrun Ht Hin)
    as (source & image_bytes & after & -> & _ & _ & Hd & -> & Ho).
  destruct (answer_outcome E _) as [analysis|exc] eqn:Hanswer; [|by destruct Ho].
  destruct (truthy (product_image_id (supplied_payload request))) eqn:Hid.
  - destruct Ho as [timestamp ->].
    assert (In (StoreUpdate (the (product_image_id (supplied_payload request)))
                  analysis timestamp)
              ([StoreSelect (the (product_image_id (supplied_payload request)))]
               ++ [HttpGet source 20;
                   GenerateContent (generate_request (configured_model E) image_bytes)]
               ++ [StoreUpdate (the (product_image_id (supplied_payload request)))
                     analysis timestamp])) as Hup by (simpl; auto).
    destruct (analyze_update _ _ _ _ _ _ _ _ _ _ Hrun Ht Hup)
      as (record & url & sent & now & _ & _ & _ & _ & Hcalls & _ & _ & _ & Hout).
    injection Hcalls as <- _.
    destruct (update_raises E _ _ _); [by destruct Hout|].
    destruct Hout as [[= ->] _].
    exists source, image_bytes, analysis, timestamp. by rewrite Ht.
  - destruct Ho as (-> & [= ->] & _).
    exists source, image_bytes, analysis, "". by rewrite Ht.
Qed.

Lemma success_calls_witness :
  exists timestamp,
    trace (analyze_product_image (Sample.services [Some "{}"] None)
             (Sample.post (Some "r1") None) Sample.COLD).2
    = [StoreSelect "r1"; HttpGet "https://x/thumb.jpg" 20;
       GenerateContent (generate_request "gemini-2.5-flash" Sample.JPEG);
       StoreUpdate "r1" (JObj []) timestamp].
Proof.
  destruct (success_calls (Sample.services [Some "{}"] None)
              (Sample.post (Some "r1") None) Sample.COLD
              {| resp_body :=
                   JsonDumps (JObj [("source_image_url", JStr "https://x/thumb.jpg");
                                    ("analysis", JObj [])]);
                 resp_status := 200;
                 resp_headers := [("Content-Type", "application/json")] |})
    as (source & image_bytes & analysis & timestamp & Hd & _ & Hbody & Htrace);
    [reflexivity|reflexivity|].
  injection Hbody as <- <-. injection Hd as <-.
  by exists timestamp.
Defined.

(** X13: the response contract.  The handler answers every request but a
    POST whose body is a truthy JSON value other than an object (an array, a
    string, a number, [true]): on such a body [payload.get] raises an
    [AttributeError] that no [try] block covers, before any call.  An answer
    has status 405 exactly when the method is not POST, and otherwise 200,
    400 or 500; every answer but the 405 is a JSON body with the
    [Content-Type: application/json] header: the object of
    [source_image_url] and [analysis] when the status is 200, and an object
    with the single key [error] otherwise. *)
Theorem response_contract (E : externals) (request : request) (w : world) :
  let run := analyze_product_image E request w in
  (forall exc,
     run.1 = Raise exc <->
     method request = "POST"
     /\ exists type_name,
          get_json_silent request = Return (OtherBody true type_name)
          /\ exc = Exn AttributeError
                     ("'" +:+ type_name +:+ "' object has no attribute 'get'"))
  /\ (forall exc, run.1 = Raise exc -> run.2 = w)
  /\ (forall response,
        run.1 = Return response ->
        (resp_status response = 405 <-> method request <> "POST")
        /\ (method request <> "POST" ->
            response = {| resp_body := Text "Method Not Allowed"; resp_status := 405;
                          resp_headers := [] |})
        /\ (method request = "POST" ->
            resp_headers response = [("Content-Type", "application/json")]
            /\ (resp_status response = 200
                /\ (exists source analysis,
                      resp_body response
                      = JsonDumps (JObj [("source_image_url", JStr source);
                                         ("analysis", analysis)]))
                \/ (resp_status response = 400 \/ resp_status response = 500)
                   /\ exists message,
                        resp_body response = JsonDumps (JObj [("error", JStr message)])))).
Proof.
  simpl.
  destruct (handler_cases E request w)
    as [(_ & _ & [Hm|[[Hm [exc Hj]]|[Hm [type_name Hj]]]])|(Hm & o & w' & Hrun & Hresp)].
  - rewrite not_post_run by done. simpl. split_and!.
    + intros exc. split; [done|]. by intros [? _].
    + done.
    + intros response [= <-]. by split_and!.
  - rewrite (unreadable_run E request w exc) by done. simpl. split_and!.
    + intros exc'. split; [done|]. intros (_ & type_name & Hj' & _). congruence.
    + done.
    + intros response [= <-]. simpl. split_and!; [by split|done|].
      intros _. split; [done|]. right. eauto.
  - rewrite (not_an_object_run E request w type_name) by done. simpl. split_and!.
    + intros exc. split.
      * intros [= <-]. eauto.
      * intros (_ & type_name' & Hj' & ->). congruence.
    + done.
    + done.
  - split_and!.
    + intros exc. split; [by rewrite Hresp|]. intros (_ & type_name & Hj & _).
      by rewrite (not_an_object_run E request w type_name) in Hresp.
    + by rewrite Hresp.
    + rewrite Hresp. simpl. intros response [= <-]. destruct o as [result|exc].
      * simpl. split_and!; [by split|done|]. intros _. split; [done|]. left. split; [done|].
        destruct (analyze_calls _ _ _ _ _ _ Hrun) as (_ & _ & _ & _ & [_ Hres] & _).
        destruct Hres as (source & analysis & ->). eauto.
      * rewrite response_of_Raise. destruct (is_ValueError exc); simpl;
          (split_and!; [by split|done|]); intros _; (split; [done|]); right; eauto.
Qed.

(** X15: only an [APIError] of the update is wrapped: when the update raises
    an exception of another class, the request is answered with that
    exception's own message, with status 400 if it derives from [ValueError]
    and 500 otherwise, although the analysis was made. *)
Theorem update_failure_unwrapped (E : externals) (request : request) (w : world)
    (calls : list call) (id : string) (metadata : json) (timestamp : string) (exc : exn) :
  trace (analyze_product_image E request w).2 = trace w ++ calls ->
  In (StoreUpdate id metadata timestamp) calls ->
  update_raises E id metadata timestamp = Some exc ->
  is_APIError exc = false ->
  (analyze_product_image E request w).1
  = Return {| resp_body := JsonDumps (JObj [("error", JStr (exn_str exc))]);
              resp_status := if is_ValueError exc then 400 else 500;
              resp_headers := [("Content-Type", "application/json")] |}
  /\ product_images (analyze_product_image E request w).2 = product_images w.
Proof.
  intros Ht Hin Hup Hapi.
  destruct (handler_call _ _ _ _ _ Ht Hin) as (o & w' & Hrun & Hresp).
  rewrite Hresp in *. simpl in *.
  destruct (analyze_update _ _ _ _ _ _ _ _ _ _ Hrun Ht Hin)
    as (record & url & sent & now & _ & _ & _ & _ & _ & _ & _ & _ & Hout).
  rewrite Hup, Hapi in Hout. by destruct Hout as [-> ->].
Qed.

Lemma update_failure_unwrapped_witness :
  (analyze_product_image
     (Sample.services [Some "{}"] (Some (Exn OtherException "connection reset")))
     (Sample.post (Some "r1") None) Sample.COLD).1
  = Return {| resp_body := JsonDumps (JObj [("error", JStr "connection reset")]);
              resp_status := 500;
              resp_headers := [("Content-Type", "application/json")] |}.
Proof.
  apply (update_failure_unwrapped
           (Sample.services [Some "{}"] (Some (Exn OtherException "connection reset")))
           (Sample.post (Some "r1") None) Sample.COLD
           [StoreSelect "r1"; HttpGet "https://x/thumb.jpg" 20;
            GenerateContent (generate_request "gemini-2.5-flash" Sample.JPEG);
            StoreUpdate "r1" (JObj []) "2023-11-14T22:13:20+00:00"]
           "r1" (JObj []) "2023-11-14T22:13:20+00:00"
           (Exn OtherException "connection reset"));
    [reflexivity | simpl; auto | reflexivity | reflexivity].
Defined.

(** * The client singletons across a request *)

Lemma keeps_clients_ret {A} (a : A) : keeps_clients (ret a).
Proof. by intros w o w' [= <- <-]. Qed.

Lemma keeps_clients_raise {A} (exc : exn) : keeps_clients (@raise A exc).
Proof. by intros w o w' [= <- <-]. Qed.

Lemma keeps_clients_lift {A} (o : outcome A) : keeps_clients (lift o).
Proof. by intros w o' w' [= <- <-]. Qed.

Lemma keeps_clients_bind {A B} (m : M A) (k : A -> M B) :
  keeps_clients m -> (forall a, keeps_clients (k a)) -> keeps_clients (bind m k).
Proof.
  intros Hm Hk w o w' H.
  apply bind_inv in H as [(a & w1 & H1 & H2)|(exc & H1 & _)].
  - destruct (Hm _ _ _ H1) as [Hs1 Hg1], (Hk a _ _ _ H2) as [Hs2 Hg2]. split; eauto.
  - by apply (Hm _ _ _ H1).
Qed.

Lemma keeps_clients_try {A} (m : M A) (handler : exn -> M A) :
  keeps_clients m -> (forall exc, keeps_clients (handler exc)) ->
  keeps_clients (try_except_APIError m handler).
Proof.
  intros Hm Hh w o w' H. unfold try_except_APIError in H.
  destruct (m w) as [[a|exc] w1] eqn:H1.
  - injection H as <- <-. by apply (Hm _ _ _ H1).
  - destruct (is_APIError exc).
    + destruct (Hm _ _ _ H1) as [Hs1 Hg1], (Hh exc _ _ _ H) as [Hs2 Hg2]. split; eauto.
    + injection H as <- <-. by apply (Hm _ _ _ H1).
Qed.

Section Clients.

Variable E : externals.

Lemma keeps_clients_get_supabase_client : keeps_clients (_get_supabase_client E).
Proof.
  intros w o w' H. pose proof H as H'.
  apply get_supabase_client_run in H' as (_ & _ & _ & Hg & Ho).
  split; [|intros; congruence].
  intros client Hc. destruct o as [client'|exc]; [|by subst].
  unfold _get_supabase_client in H. rewrite Hc in H. by injection H as <- <-.
Qed.

Lemma keeps_clients_get_gemini_client : keeps_clients (_get_gemini_client E).
Proof.
  intros w o w' H. pose proof H as H'.
  apply get_gemini_client_run in H' as (_ & _ & _ & Hs & Ho).
  split; [intros; congruence|].
  intros client Hc. destruct o as [client'|exc]; [|by subst].
  unfold _get_gemini_client in H. rewrite Hc in H. by injection H as <- <-.
Qed.

Lemma keeps_clients_fetch (image_id : string) :
  keeps_clients (_fetch_product_image_record E image_id).
Proof.
  apply keeps_clients_bind; [apply keeps_clients_get_supabase_client|]. intros client.
  apply keeps_clients_bind.
  - intros w o w' H. unfold select_eq_single_execute in H.
    destruct (select_raises E image_id); [by injection H as <- <-|].
    by destruct (product_images w !! image_id); injection H as <- <-.
  - intros [record|]; [apply keeps_clients_ret|apply keeps_clients_raise].
Qed.

Lemma keeps_clients_download (image_url : string) :
  keeps_clients (_download_image E image_url).
Proof.
  apply keeps_clients_bind.
  - by intros w o w' [= <- <-].
  - intros response.
    destruct (raise_for_status response); [apply keeps_clients_raise|apply keeps_clients_ret].
Qed.

Lemma keeps_clients_call_gemini (image_bytes : bytes) (model_id : string) :
  keeps_clients (_call_gemini E image_bytes model_id).
Proof.
  apply keeps_clients_bind; [apply keeps_clients_get_gemini_client|]. intros client.
  apply keeps_clients_bind.
  - by intros w o w' [= <- <-].
  - intros response.
    destruct (candidates response) as [|candidate ?]; [apply keeps_clients_raise|].
    destruct (candidate_content candidate) as [content|]; [|apply keeps_clients_raise].
    destruct (parts content); [apply keeps_clients_lift|apply keeps_clients_raise].
Qed.

Lemma keeps_clients_update (image_id : string) (metadata : json) :
  keeps_clients (_update_ai_metadata E image_id metadata).
Proof.
  apply keeps_clients_bind; [apply keeps_clients_get_supabase_client|]. intros client.
  apply keeps_clients_bind; [by intros w o w' [= <- <-]|]. intros now.
  apply keeps_clients_try; [|intros exc; apply keeps_clients_raise].
  intros w o w' H. unfold update_eq_execute in H.
  by destruct (update_raises E _ _ _); injection H as <- <-.
Qed.

Lemma keeps_clients_analyze (image_id image_url : option string) :
  keeps_clients (_analyze E image_id image_url).
Proof.
  unfold _analyze. apply keeps_clients_bind.
  - destruct (truthy image_id); [|apply keeps_clients_ret].
    apply keeps_clients_bind; [apply keeps_clients_fetch|]. intros record.
    apply keeps_clients_bind; [apply keeps_clients_lift|]. intros url.
    apply keeps_clients_ret.
  - intros resolved. destruct (negb _); [apply keeps_clients_raise|].
    apply keeps_clients_bind; [apply keeps_clients_download|]. intros image_bytes.
    apply keeps_clients_bind; [apply keeps_clients_call_gemini|]. intros analysis.
    apply keeps_clients_bind; [|intros _; apply keeps_clients_ret].
    destruct (_ && _); [apply keeps_clients_update|apply keeps_clients_ret].
Qed.

End Clients.

(** X16: no request resets or replaces a client: a client singleton that
    exists when a request comes in is the same when the request has been
    answered, however the request ends. *)
Theorem clients_survive_requests (E : externals) (request : request) (w : world) :
  let w' := (analyze_product_image E request w).2 in
  (forall client, _supabase_client w = Some client -> _supabase_client w' = Some client)
  /\ (forall client, _gemini_client w = Some client -> _gemini_client w' = Some client).
Proof.
  simpl.
  destruct (handler_cases E request w) as [(-> & _)|(_ & o & w' & Hrun & ->)]; [done|].
  by apply (keeps_clients_analyze E _ _ _ _ _ Hrun).
Qed.

Lemma for_part_in_first_text_witness :
  for_part_in (Sample.services [] None)
    [ {| text := None |}; {| text := Some "" |}; {| text := Some "{}" |};
      {| text := Some "not json" |} ]
  = Return (JObj []).
Proof.
  apply (for_part_in_first_text (Sample.services [] None)
           [ {| text := None |}; {| text := Some "" |} ] {| text := Some "{}" |}
           [ {| text := Some "not json" |} ]); [by repeat constructor|reflexivity].
Defined.
